(** * sunpycube.spectra.spectrum: the [Spectrum] container

    A shallow embedding of [src/sunpycube/spectra/spectrum.py]: the indexing
    logic ([__getitem__], [_intify_slice], [_qty_to_pixel]), the line-guess
    heuristic ([_make_line_guess]) and the axis transformers ([shift_axis],
    [map_to_axis]).

    Conventions of the embedding.
    - A Python exception is a value of [exn]; a computation that may raise
      has type [result A].
    - A numpy scalar is a [num]: an integer ([I]) or a float ([F]).  Integers
      are mathematical integers and a float is the rational it denotes, kept in
      canonical form ([Qc]), so equality of floats is Leibniz equality; the
      fixed width of a numpy dtype, rounding, infinities and NaN are outside
      the model.
    - A numpy array is an [ndarray]: the list of its elements together with
      its dtype (the constructor).  Where sharing matters an array object is
      a [view] on a buffer of a [store]: slicing gives a view on the same
      buffer, [+=] writes into the buffer, an assignment to [self.axis]
      rebinds the attribute.  The methods are written once for both readings
      ([Array]), and [getitem_views_values] relates the two.
    - The collaborators (numpy, astropy.units) are modelled by the handful of
      operations the source calls, under the names the source uses: a unit
      is a physical type and a positive scale, a Quantity a float with a
      unit, and numpy refuses a float where it wants an index. *)

From Stdlib Require Import ZArith QArith Qcanon Qcabs List Bool Lia.
Import ListNotations.
Local Open Scope Z_scope.

(** ** Exceptions *)

Inductive exn : Set :=
| IndexError
| TypeError
| ValueError
| UnitConversionError.

Inductive result (A : Type) : Type :=
| Ok (a : A)
| Raise (e : exn).

Arguments Ok {A} a.
Arguments Raise {A} e.

Definition bind {A B : Type} (m : result A) (k : A -> result B) : result B :=
  match m with
  | Ok a => k a
  | Raise e => Raise e
  end.

Notation "x <- m ;; k" := (bind m (fun x => k))
  (at level 61, m at next level, right associativity).

(** ** Numbers *)

Inductive num : Set :=
| I (z : Z)
| F (q : Qc).

(** [float(z)]. *)
Definition float (z : Z) : Qc := Q2Qc (inject_Z z).

Definition to_float (n : num) : Qc :=
  match n with
  | I z => float z
  | F q => q
  end.

(** Scalar subtraction with numpy's promotion: int - int is an int, anything
    else a float. *)
Definition num_sub (a b : num) : num :=
  match a, b with
  | I x, I y => I (x - y)
  | _, _ => F (to_float a - to_float b)%Qc
  end.

Definition Qcltb (x y : Qc) : bool :=
  match (x ?= y)%Qc with
  | Lt => true
  | _ => false
  end.

(** The source is written for both Python lines (it imports from
    [__future__]) but does not import [division]: [amp / 2] on an integer
    sample floors under Python 2 and is a true division under Python 3. *)
Inductive python : Set := Python2 | Python3.

Definition py_div (py : python) (a : num) (d : Z) : num :=
  match py, a with
  | Python2, I z => I (z / d)
  | _, _ => F (to_float a / float d)%Qc
  end.

(** ** astropy.units *)

Module u.
Inductive physical_type : Set := length | frequency | time | dimensionless.

Definition physical_type_eqb (a b : physical_type) : bool :=
  match a, b with
  | length, length | frequency, frequency | time, time
  | dimensionless, dimensionless => true
  | _, _ => false
  end.

(** A unit: its physical type and its scale to the base unit of that type,
    a positive rational [scale_num / scale_den]. *)
Record Unit : Set := {
  physical : physical_type;
  scale_num : positive;
  scale_den : positive
}.

Definition scale (un : Unit) : Qc := Q2Qc (Zpos (scale_num un) # scale_den un).

Record Quantity : Set := {
  value : Qc;
  unit : Unit
}.

(** [x * un] for a number [x]. *)
Definition mul (x : Qc) (un : Unit) : Quantity :=
  {| value := x; unit := un |}.

(** [q.to(target)]: units of another physical type do not convert. *)
Definition to (q : Quantity) (target : Unit) : result Quantity :=
  if physical_type_eqb (physical (unit q)) (physical target) then
    Ok {| value := (value q * (scale (unit q) / scale target))%Qc;
          unit := target |}
  else Raise UnitConversionError.
End u.

(** ** Python objects used as indices *)

Inductive pyobj : Set :=
| PyNone
| PyInt (z : Z)
| PyFloat (x : Qc)
| PyQuantity (q : u.Quantity).

(** A slice object [slice(start, stop, step)]. *)
Record slice : Set := {
  start : pyobj;
  stop : pyobj;
  step : pyobj
}.

Inductive index : Set :=
| Obj (o : pyobj)
| Slice (s : slice)
| Tuple (elts : list pyobj).

(** [isinstance(o, int)]. *)
Definition is_int (o : pyobj) : bool :=
  match o with
  | PyInt _ => true
  | _ => false
  end.

(** A numpy scalar seen as a Python object. *)
Definition scalar (n : num) : pyobj :=
  match n with
  | I z => PyInt z
  | F x => PyFloat x
  end.

(** ** Lists: first best position, Python indexing and slicing *)

Section ListOps.
Context {A : Type}.

(** Position of the first element that no other element beats, [better x y]
    meaning that [x] beats [y] strictly: numpy's [argmin] with [<],
    [argmax] with [>]. *)
Fixpoint argbest (better : A -> A -> bool) (best : A) (besti i : nat)
         (l : list A) : nat :=
  match l with
  | [] => besti
  | x :: t =>
      if better x best then argbest better x i (S i) t
      else argbest better best besti (S i) t
  end.

Definition argfirst (better : A -> A -> bool) (l : list A) : result nat :=
  match l with
  | [] => Raise ValueError
  | x :: t => Ok (argbest better x 0%nat 1%nat t)
  end.

Definition znth (l : list A) (i : Z) : option A :=
  if i <? 0 then None else nth_error l (Z.to_nat i).

(** [l[i]] for an integer [i]: negative positions count from the end. *)
Definition py_index (l : list A) (i : Z) : result A :=
  let n := Z.of_nat (length l) in
  match znth l (if i <? 0 then i + n else i) with
  | Some x => Ok x
  | None => Raise IndexError
  end.

(** [PySlice_AdjustIndices]: a bound is taken from the end when negative
    and clipped to the sequence. *)
Definition adjust (n step i : Z) : Z :=
  if i <? 0 then
    if i + n <? 0 then (if step <? 0 then -1 else 0) else i + n
  else
    if n <=? i then (if step <? 0 then n - 1 else n) else i.

Definition slice_start (n : Z) (start : option Z) (step : Z) : Z :=
  match start with
  | Some i => adjust n step i
  | None => if step <? 0 then n - 1 else 0
  end.

Definition slice_stop (n : Z) (stop : option Z) (step : Z) : Z :=
  match stop with
  | Some i => adjust n step i
  | None => if step <? 0 then -1 else n
  end.

Definition slice_length (lo hi step : Z) : Z :=
  if step <? 0 then
    if hi <? lo then (lo - hi - 1) / (- step) + 1 else 0
  else
    if lo <? hi then (hi - lo - 1) / step + 1 else 0.

(** The elements at [lo], [lo + step], ... ([len] of them). *)
Definition strided (l : list A) (lo step : Z) (len : nat) : list A :=
  flat_map
    (fun k => match znth l (lo + Z.of_nat k * step) with
              | Some x => [x]
              | None => []
              end)
    (seq 0 len).

(** [l[start:stop:step]] for a non-zero [step]. *)
Definition py_slice (l : list A) (start stop : option Z) (step : Z)
  : list A :=
  let n := Z.of_nat (length l) in
  let lo := slice_start n start step in
  let hi := slice_stop n stop step in
  strided l lo step (Z.to_nat (slice_length lo hi step)).
End ListOps.

(** ** numpy arrays *)

Inductive ndarray : Set :=
| IntArr (l : list Z)
| FloatArr (l : list Qc).

Definition size (a : ndarray) : Z :=
  match a with
  | IntArr l => Z.of_nat (length l)
  | FloatArr l => Z.of_nat (length l)
  end.

(** [a[i]] for an integer [i]. *)
Definition np_index (a : ndarray) (i : Z) : result num :=
  match a with
  | IntArr l => x <- py_index l i ;; Ok (I x)
  | FloatArr l => x <- py_index l i ;; Ok (F x)
  end.

(** [a[i]] for a numpy scalar [i]: only an integer is an index. *)
Definition np_getitem (a : ndarray) (i : num) : result num :=
  match i with
  | I z => np_index a z
  | F _ => Raise IndexError
  end.

(** [a - v] for a scalar [v]. *)
Definition np_sub (a : ndarray) (v : num) : ndarray :=
  match a, v with
  | IntArr l, I y => IntArr (map (fun x => x - y) l)
  | IntArr l, F y => FloatArr (map (fun x => float x - y)%Qc l)
  | FloatArr l, _ => FloatArr (map (fun x => x - to_float v)%Qc l)
  end.

Definition np_abs (a : ndarray) : ndarray :=
  match a with
  | IntArr l => IntArr (map Z.abs l)
  | FloatArr l => FloatArr (map Qcabs l)
  end.

(** [a.argmin()], [a.argmax()]: the first occurrence; an empty array raises
    ValueError. *)
Definition argmin (a : ndarray) : result nat :=
  match a with
  | IntArr l => argfirst Z.ltb l
  | FloatArr l => argfirst Qcltb l
  end.

Definition argmax (a : ndarray) : result nat :=
  match a with
  | IntArr l => argfirst Z.gtb l
  | FloatArr l => argfirst (fun x y => Qcltb y x) l
  end.

(** [a.max()]. *)
Definition np_max (a : ndarray) : result num :=
  k <- argmax a ;; np_index a (Z.of_nat k).

(** [a[k:]] and [a[:k]] for a position [k] of the array. *)
Definition from (a : ndarray) (k : nat) : ndarray :=
  match a with
  | IntArr l => IntArr (skipn k l)
  | FloatArr l => FloatArr (skipn k l)
  end.

Definition upto (a : ndarray) (k : nat) : ndarray :=
  match a with
  | IntArr l => IntArr (firstn k l)
  | FloatArr l => FloatArr (firstn k l)
  end.

(** [a[lo:hi:c]] for integer or absent bounds and a non-zero step. *)
Definition slice_of (a : ndarray) (lo hi : option Z) (c : Z) : ndarray :=
  match a with
  | IntArr l => IntArr (py_slice l lo hi c)
  | FloatArr l => FloatArr (py_slice l lo hi c)
  end.

(** A slice bound must be [None] or an integer. *)
Definition as_index (b : pyobj) : result (option Z) :=
  match b with
  | PyNone => Ok None
  | PyInt z => Ok (Some z)
  | PyFloat _ | PyQuantity _ => Raise TypeError
  end.

(** [a.__getitem__(s)] for a slice [s]: the step is looked at first (an
    absent step is 1, zero raises ValueError), then the bounds. *)
Definition np_slice (a : ndarray) (s : slice) : result ndarray :=
  c <- as_index (step s) ;;
  let c := match c with Some c => c | None => 1 end in
  if c =? 0 then Raise ValueError
  else
    lo <- as_index (start s) ;;
    hi <- as_index (stop s) ;;
    Ok (slice_of a lo hi c).

(** ** Array objects

    A numpy array object is either looked at as the elements it holds (an
    [ndarray] value) or, where sharing matters, as a view on a buffer of a
    store.  The methods of [Spectrum] are written once, over any
    representation that says what an array holds ([contents]) and what
    [a.__getitem__(s)] returns for a slice [s] ([getslice]). *)

Class Array (A : Type) : Type := {
  contents : A -> ndarray;
  getslice : A -> slice -> result A
}.

#[export] Instance ndarray_Array : Array ndarray := {|
  contents := fun a => a;
  getslice := np_slice
|}.

(** ** The Spectrum class *)

Record Spectrum (A : Type) : Type := {
  data : A;
  axis : A;
  axis_unit : u.Unit
}.

Arguments data {A} _.
Arguments axis {A} _.
Arguments axis_unit {A} _.

(** What indexing returns: a sample or a new Spectrum. *)
Inductive value (A : Type) : Type :=
| Sample (x : num)
| Spec (s : Spectrum A).

Arguments Sample {A} x.
Arguments Spec {A} s.

(** [o * unit] where [o] is an int or a float. *)
Definition times (o : pyobj) (unit : u.Unit) : pyobj :=
  match o with
  | PyInt z => PyQuantity (u.mul (float z) unit)
  | PyFloat x => PyQuantity (u.mul x unit)
  | _ => o
  end.

Section Methods.
Context {A : Type} `{Array A}.

(** The position of the axis value closest to [value]:
    [(np.abs(self.axis - value)).argmin()]. *)
Definition closest_index (self : Spectrum A) (value : num) : result nat :=
  argmin (np_abs (np_sub (contents (axis self)) value)).

Definition _qty_to_pixel (self : Spectrum A) (quantity : pyobj)
  : result num :=
  value <- match quantity with
           | PyQuantity q =>
               q' <- u.to q (axis_unit self) ;; Ok (F (u.value q'))
           | PyInt z => Ok (I z)
           | PyFloat x => Ok (F x)
           | PyNone => Raise TypeError
           end ;;
  closest_index <- closest_index self value ;;
  np_index (contents (axis self)) (Z.of_nat closest_index).

Definition _intify_slice (self : Spectrum A) (item : slice) : result slice :=
  if negb (is_int (step item)) then Raise IndexError
  else
    let '(unit, start, stop) :=
      match start item, stop item with
      | PyQuantity q, (PyInt _ | PyFloat _) =>
          (Some (u.unit q), start item, times (stop item) (u.unit q))
      | PyQuantity q, _ => (Some (u.unit q), start item, stop item)
      | PyFloat _, PyQuantity q =>
          (Some (u.unit q), times (start item) (u.unit q), stop item)
      | PyFloat _, PyNone =>
          (Some (axis_unit self), times (start item) (axis_unit self),
           PyNone)
      | PyFloat _, _ =>
          (Some (axis_unit self), times (start item) (axis_unit self),
           times (stop item) (axis_unit self))
      | PyInt _, PyQuantity q =>
          (Some (u.unit q), times (start item) (u.unit q), stop item)
      | PyInt _, PyFloat _ =>
          (Some (axis_unit self), times (start item) (axis_unit self),
           times (stop item) (axis_unit self))
      | PyInt _, _ => (None, start item, stop item)
      | PyNone, PyQuantity q => (Some (u.unit q), start item, stop item)
      | PyNone, PyFloat _ =>
          (Some (axis_unit self), start item,
           times (stop item) (axis_unit self))
      | PyNone, _ => (None, start item, stop item)
      end in
    match unit with
    | Some _ =>
        start <- _qty_to_pixel self start ;;
        stop <- _qty_to_pixel self stop ;;
        Ok {| start := scalar start; stop := scalar stop;
              step := step item |}
    | None => Ok {| start := start; stop := stop; step := step item |}
    end.

Definition __getitem__ (self : Spectrum A) (item : index)
  : result (value A) :=
  match item with
  | Obj (PyInt i) =>
      x <- np_index (contents (data self)) i ;; Ok (Sample x)
  | Obj (PyFloat f) =>
      pixel <- _qty_to_pixel self (times (PyFloat f) (axis_unit self)) ;;
      x <- np_getitem (contents (data self)) pixel ;; Ok (Sample x)
  | Obj (PyQuantity q) =>
      pixel <- _qty_to_pixel self (PyQuantity q) ;;
      x <- np_getitem (contents (data self)) pixel ;; Ok (Sample x)
  | Slice s =>
      intslice <- _intify_slice self s ;;
      newdata <- getslice (data self) intslice ;;
      newaxis <- getslice (axis self) intslice ;;
      Ok (Spec {| data := newdata; axis := newaxis;
                  axis_unit := axis_unit self |})
  | Tuple _ => Raise IndexError
  | Obj PyNone => Raise IndexError
  end.

Definition _make_line_guess (py : python) (self : Spectrum A)
  : result (num * num * num) :=
  amp <- np_max (contents (data self)) ;;
  argamp <- argmax (contents (data self)) ;;
  mean <- np_index (contents (axis self)) (Z.of_nat argamp) ;;
  let diffs := np_abs (np_sub (contents (data self)) (py_div py amp 2)) in
  rval <- (if 0 <? size (from diffs argamp)
           then k <- argmin (from diffs argamp) ;; Ok (Z.of_nat k)
           else Ok (size diffs - 1)) ;;
  lval <- (if 0 <? size (upto diffs argamp)
           then k <- argmin (from diffs argamp) ;; Ok (Z.of_nat k)
           else Ok 0) ;;
  r <- np_index (contents (axis self)) rval ;;
  l <- np_index (contents (axis self)) lval ;;
  Ok (amp, mean, num_sub r l).
End Methods.

(** ** The store: arrays as views on shared buffers

    Slicing a numpy array with a slice object does not copy: the result is a
    view on the buffer of the array it was taken from.  A store holds the
    buffers; an array object is a [view]: the buffer it looks at, the position
    of its first element, the distance between two elements and their
    number. *)

Record store : Type := {
  next : nat;
  buffer : nat -> ndarray
}.

Record view : Set := {
  base : nat;
  offset : Z;
  stride : Z;
  count : nat
}.

Definition read (st : store) (v : view) : ndarray :=
  match buffer st (base v) with
  | IntArr l => IntArr (strided l (offset v) (stride v) (count v))
  | FloatArr l => FloatArr (strided l (offset v) (stride v) (count v))
  end.

(** [v.__getitem__(s)]: the view on the elements the slice selects. *)
Definition view_slice (v : view) (s : slice) : result view :=
  c <- as_index (step s) ;;
  let c := match c with Some c => c | None => 1 end in
  if c =? 0 then Raise ValueError
  else
    lo <- as_index (start s) ;;
    hi <- as_index (stop s) ;;
    let n := Z.of_nat (count v) in
    let lo := slice_start n lo c in
    let hi := slice_stop n hi c in
    Ok {| base := base v;
          offset := offset v + lo * stride v;
          stride := stride v * c;
          count := Z.to_nat (slice_length lo hi c) |}.

Definition view_Array (st : store) : Array view := {|
  contents := read st;
  getslice := view_slice
|}.

(** A new buffer holding [a], and the view on the whole of it. *)
Definition alloc (a : ndarray) (st : store) : view * store :=
  ({| base := next st; offset := 0; stride := 1;
      count := Z.to_nat (size a) |},
   {| next := S (next st);
      buffer := fun b => if Nat.eqb b (next st) then a else buffer st b |}).

Definition write (b : nat) (a : ndarray) (st : store) : store :=
  {| next := next st;
     buffer := fun b' => if Nat.eqb b' b then a else buffer st b' |}.

Fixpoint add_at (l : list Qc) (i : nat) (x : Qc) : list Qc :=
  match l, i with
  | [], _ => []
  | y :: t, O => (y + x)%Qc :: t
  | y :: t, S i => y :: add_at t i x
  end.

(** [v += x] for a float [x]: every element the view selects is increased in
    the buffer.  An integer buffer does not take a float (numpy's same-kind
    casting rule): TypeError, and nothing is written. *)
Definition iadd (v : view) (x : Qc) (st : store) : result store :=
  match buffer st (base v) with
  | IntArr _ => Raise TypeError
  | FloatArr l =>
      Ok (write (base v)
            (FloatArr
               (fold_left
                  (fun l k =>
                     let i := offset v + Z.of_nat k * stride v in
                     if i <? 0 then l else add_at l (Z.to_nat i) x)
                  (seq 0 (count v)) l))
            st)
  end.

Definition to_floats (a : ndarray) : list Qc :=
  match a with
  | IntArr l => map float l
  | FloatArr l => l
  end.

Definition shift_axis (self : Spectrum view) (offset : pyobj) (st : store)
  : result store :=
  offset <- match offset with
            | PyQuantity q => Ok q
            | PyInt z => Ok (u.mul (float z) (axis_unit self))
            | PyFloat x => Ok (u.mul x (axis_unit self))
            | PyNone => Raise TypeError
            end ;;
  offset <- u.to offset (axis_unit self) ;;
  iadd (axis self) (u.value offset) st.

(** [fun] is any function from Quantity to Quantity; the new axis is a fresh
    list, to which [self.axis] is rebound. *)
Definition map_to_axis (self : Spectrum view)
           (fun_ : u.Quantity -> u.Quantity) (st : store)
  : Spectrum view * store :=
  let qtys := map (fun tick => u.mul tick (axis_unit self))
                  (to_floats (read st (axis self))) in
  let newqtys := map fun_ qtys in
  let newaxis := map u.value newqtys in
  let '(newaxis, st) := alloc (FloatArr newaxis) st in
  ({| data := data self; axis := newaxis; axis_unit := axis_unit self |}, st).

(** What a Spectrum of views holds in a store, and the same for what
    indexing returns. *)
Definition snapshot (st : store) (self : Spectrum view) : Spectrum ndarray :=
  {| data := read st (data self);
     axis := read st (axis self);
     axis_unit := axis_unit self |}.

Definition snapshot_value (st : store) (v : value view) : value ndarray :=
  match v with
  | Sample x => Sample x
  | Spec s => Spec (snapshot st s)
  end.

(** Every element of a view is an element of its buffer. *)
Definition in_bounds (st : store) (v : view) : Prop :=
  forall k, (k < count v)%nat ->
            0 <= offset v + Z.of_nat k * stride v < size (buffer st (base v)).

(** The buffers of a Spectrum exist in the store. *)
Definition allocated (st : store) (self : Spectrum view) : Prop :=
  (base (data self) < next st)%nat /\ (base (axis self) < next st)%nat.

(** ** The spectra of the scenarios *)

Definition metre : u.Unit :=
  {| u.physical := u.length; u.scale_num := 1; u.scale_den := 1 |}.

Definition kilometre : u.Unit :=
  {| u.physical := u.length; u.scale_num := 1000; u.scale_den := 1 |}.

Definition hertz : u.Unit :=
  {| u.physical := u.frequency; u.scale_num := 1; u.scale_den := 1 |}.

(** [Spectrum(data=[0,1,4,9,4,1,0], axis=[0,1,2,3,4,5,6], axis_unit=L)]. *)
Definition scenario (L : u.Unit) : Spectrum ndarray :=
  {| data := IntArr [0; 1; 4; 9; 4; 1; 0];
     axis := IntArr [0; 1; 2; 3; 4; 5; 6];
     axis_unit := L |}.

(** A spectrum whose axis runs downwards, so that no axis value of a sample
    is its position. *)
Definition downwards : Spectrum ndarray :=
  {| data := IntArr [5; 6; 7];
     axis := IntArr [2; 1; 0];
     axis_unit := metre |}.

(** A store with two float buffers, and the Spectrum whose data and axis
    are the whole of them: data [[5., 6., 7.]], axis [[0., 1., 2.]]. *)
Definition two_buffers : store :=
  {| next := 2;
     buffer := fun b =>
       match b with
       | O => FloatArr [float 5; float 6; float 7]
       | _ => FloatArr [float 0; float 1; float 2]
       end |}.

Definition parent : Spectrum view :=
  {| data := {| base := 0; offset := 0; stride := 1; count := 3 |};
     axis := {| base := 1; offset := 0; stride := 1; count := 3 |};
     axis_unit := metre |}.

(** [parent[0:2:1]]. *)
Definition child : Spectrum view :=
  {| data := {| base := 0; offset := 0; stride := 1; count := 2 |};
     axis := {| base := 1; offset := 0; stride := 1; count := 2 |};
     axis_unit := metre |}.

(** ** Notions the further properties are stated with *)

(** The distance of two numbers: [abs(a - v)], as a float. *)
Definition dist (a v : num) : Qc := Qcabs (to_float a - to_float v)%Qc.

(** The place in its buffer of the [k]-th element of a view. *)
Definition position (v : view) (k : nat) : Z :=
  offset v + Z.of_nat k * stride v.

(** Every element of the view [w] is an element of the view [v]. *)
Definition within (v w : view) : Prop :=
  base w = base v /\
  forall k, (k < count w)%nat ->
            exists j, (j < count v)%nat /\ position w k = position v j.

(** The buffer after [n] elements of the view have been increased. *)
Definition increased (v : view) (x : Qc) (l : list Qc) (n : nat) : list Qc :=
  fold_left
    (fun l k =>
       let i := offset v + Z.of_nat k * stride v in
       if i <? 0 then l else add_at l (Z.to_nat i) x)
    (seq 0 n) l.

(** An offset in the unit [un]: a number as it is, a Quantity by the ratio
    of the scales. *)
Definition magnitude (un : u.Unit) (o : pyobj) : Qc :=
  match o with
  | PyInt z => float z
  | PyFloat x => x
  | PyQuantity q => (u.value q * (u.scale (u.unit q) / u.scale un))%Qc
  | PyNone => 0%Qc
  end.

(** [isinstance(o, (int, float))]. *)
Definition is_number (o : pyobj) : bool :=
  match o with
  | PyInt _ | PyFloat _ => true
  | _ => false
  end.

(** A bound the axis unit can take: a number, or a Quantity of the physical
    type of the axis. *)
Definition convertible (un : u.Unit) (o : pyobj) : bool :=
  match o with
  | PyInt _ | PyFloat _ => true
  | PyQuantity q => u.physical_type_eqb (u.physical (u.unit q)) (u.physical un)
  | PyNone => false
  end.

(** * Properties *)

(** ** The first best position of a list *)

Section ArgBest.
Context {A : Type} (better : A -> A -> bool).
Hypothesis better_irrefl : forall x, better x x = false.
Hypothesis better_asym : forall x y, better x y = true -> better y x = false.
Hypothesis better_trans :
  forall x y z, better x y = true -> better z y = false -> better x z = true.

(** [r] is the first position of [l] holding an element that none beats. *)
Definition first_best (l : list A) (r : nat) : Prop :=
  exists y,
    nth_error l r = Some y /\
    (forall z, In z l -> better z y = false) /\
    (forall m z, (m < r)%nat -> nth_error l m = Some z -> better y z = true).

Lemma argbest_first_best (l p : list A) (best : A) (besti : nat) :
  nth_error p besti = Some best ->
  (forall z, In z p -> better z best = false) ->
  (forall m z, (m < besti)%nat -> nth_error p m = Some z ->
               better best z = true) ->
  first_best (p ++ l) (argbest better best besti (length p) l).
Proof.
  revert p best besti.
  induction l as [|x t IH]; intros p best besti Hnth Hmin Hfirst; simpl.
  - rewrite app_nil_r. exists best. auto.
  - replace (p ++ x :: t) with ((p ++ [x]) ++ t)
      by (rewrite <- app_assoc; reflexivity).
    replace (S (length p)) with (length (p ++ [x]))
      by (rewrite length_app; simpl; lia).
    destruct (better x best) eqn:Hx; apply IH.
    + rewrite nth_error_app2, Nat.sub_diag by lia. reflexivity.
    + intros z Hz. apply in_app_or in Hz. destruct Hz as [Hz | [<- | []]].
      * apply better_asym. apply better_trans with best; auto.
      * apply better_irrefl.
    + intros m z Hm Hz. rewrite nth_error_app1 in Hz by exact Hm.
      apply better_trans with best; auto.
      apply Hmin. eapply nth_error_In; eauto.
    + rewrite nth_error_app1; [exact Hnth|].
      apply nth_error_Some. congruence.
    + intros z Hz. apply in_app_or in Hz. destruct Hz as [Hz | [<- | []]]; auto.
    + intros m z Hm Hz. apply Hfirst with m; [exact Hm|].
      assert (besti < length p)%nat by (apply nth_error_Some; congruence).
      rewrite nth_error_app1 in Hz by lia. exact Hz.
Qed.

Lemma argfirst_first_best (l : list A) (r : nat) :
  argfirst better l = Ok r -> first_best l r.
Proof.
  destruct l as [|x t]; simpl; [discriminate|].
  intros [= <-].
  apply (argbest_first_best t [x] x 0).
  - reflexivity.
  - intros z [<- | []]. apply better_irrefl.
  - intros m z Hm. lia.
Qed.

Lemma argfirst_total (l : list A) :
  l <> [] -> exists r, argfirst better l = Ok r.
Proof.
  destruct l; [congruence|]. intros _. simpl. eauto.
Qed.
End ArgBest.

Lemma first_best_lt {A : Type} (better : A -> A -> bool) (l : list A) (r : nat) :
  first_best better l r -> (r < length l)%nat.
Proof.
  intros (y & Hy & _). apply nth_error_Some. congruence.
Qed.

(** The orders numpy compares with. *)

Lemma Qcltb_lt (x y : Qc) : Qcltb x y = true <-> (x < y)%Qc.
Proof.
  unfold Qcltb. rewrite Qclt_alt. destruct (x ?= y)%Qc; split; congruence.
Qed.

Lemma Qcltb_ge (x y : Qc) : Qcltb x y = false <-> (y <= x)%Qc.
Proof.
  split; intros H.
  - apply Qcnot_lt_le. rewrite <- Qcltb_lt. congruence.
  - destruct (Qcltb x y) eqn:E; [|reflexivity].
    apply Qcltb_lt in E. exfalso. revert E. apply Qcle_not_lt. exact H.
Qed.

Lemma Qcltb_irrefl x : Qcltb x x = false.
Proof. apply Qcltb_ge. apply Qcle_refl. Qed.

Lemma Qcltb_asym x y : Qcltb x y = true -> Qcltb y x = false.
Proof.
  rewrite Qcltb_lt, Qcltb_ge. apply Qclt_le_weak.
Qed.

Lemma Qcltb_trans x y z :
  Qcltb x y = true -> Qcltb z y = false -> Qcltb x z = true.
Proof.
  rewrite !Qcltb_lt, Qcltb_ge. apply Qclt_le_trans.
Qed.

Lemma Zltb_asym x y : (x <? y) = true -> (y <? x) = false.
Proof. lia. Qed.

Lemma Zltb_trans x y z : (x <? y) = true -> (z <? y) = false -> (x <? z) = true.
Proof. lia. Qed.

Lemma Zgtb_irrefl x : (x >? x) = false.
Proof. lia. Qed.

Lemma Zgtb_asym x y : (x >? y) = true -> (y >? x) = false.
Proof. lia. Qed.

Lemma Zgtb_trans x y z : (x >? y) = true -> (z >? y) = false -> (x >? z) = true.
Proof. lia. Qed.

(** ** Indexing lists and arrays *)

Lemma py_index_nat {A : Type} (l : list A) (j : nat) (x : A) :
  nth_error l j = Some x -> py_index l (Z.of_nat j) = Ok x.
Proof.
  intros H. unfold py_index, znth.
  rewrite !(proj2 (Z.ltb_ge (Z.of_nat j) 0)) by lia.
  rewrite Nat2Z.id, H. reflexivity.
Qed.

Lemma py_index_Ok {A : Type} (l : list A) (i : Z) (x : A) :
  py_index l i = Ok x ->
  exists j, nth_error l j = Some x /\
            Z.of_nat j = (if i <? 0 then i + Z.of_nat (length l) else i).
Proof.
  unfold py_index, znth. intros H.
  destruct (_ <? 0) eqn:E in H; [discriminate|].
  destruct (nth_error l _) as [y|] eqn:Hn in H; [|discriminate].
  injection H as ->. eexists. split; [exact Hn|]. lia.
Qed.

Lemma py_index_in_range {A : Type} (l : list A) (i : Z) :
  - Z.of_nat (length l) <= i < Z.of_nat (length l) ->
  exists x, nth_error l (Z.to_nat (i mod Z.of_nat (length l))) = Some x /\
            py_index l i = Ok x.
Proof.
  intros Hi. set (n := Z.of_nat (length l)) in *.
  assert (Hmod : i mod n = if i <? 0 then i + n else i).
  { destruct (i <? 0) eqn:E.
    - symmetry. apply Z.mod_unique with (-1); lia.
    - apply Z.mod_small. lia. }
  unfold py_index, znth. fold n. rewrite <- Hmod.
  assert (0 <= i mod n < n) by (apply Z.mod_pos_bound; lia).
  rewrite (proj2 (Z.ltb_ge _ _)) by lia.
  destruct (nth_error l (Z.to_nat (i mod n))) as [x|] eqn:Hn.
  - exists x. auto.
  - apply nth_error_None in Hn. lia.
Qed.

Lemma argmin_int (l : list Z) (r : nat) :
  argmin (IntArr l) = Ok r -> first_best Z.ltb l r.
Proof.
  apply argfirst_first_best.
  - apply Z.ltb_irrefl.
  - apply Zltb_asym.
  - apply Zltb_trans.
Qed.

Lemma argmin_float (l : list Qc) (r : nat) :
  argmin (FloatArr l) = Ok r -> first_best Qcltb l r.
Proof.
  apply argfirst_first_best.
  - apply Qcltb_irrefl.
  - apply Qcltb_asym.
  - apply Qcltb_trans.
Qed.

Lemma argmax_lt (a : ndarray) (k : nat) :
  argmax a = Ok k -> Z.of_nat k < size a.
Proof.
  destruct a as [l | l]; simpl; intros H;
    apply argfirst_first_best in H;
    try (apply first_best_lt in H; lia).
  - apply Zgtb_irrefl.
  - apply Zgtb_asym.
  - apply Zgtb_trans.
  - intros x. apply Qcltb_irrefl.
  - intros x y. apply Qcltb_asym.
  - intros x y z. rewrite !Qcltb_lt, Qcltb_ge.
    intros H1 H2. apply Qcle_lt_trans with y; assumption.
Qed.

Lemma argmin_total (a : ndarray) :
  0 < size a -> exists r, argmin a = Ok r /\ Z.of_nat r < size a.
Proof.
  destruct a as [l | l]; simpl; intros Hs.
  - destruct (argfirst_total Z.ltb l) as [r Hr].
    { destruct l; simpl in Hs; [lia | congruence]. }
    exists r. split; [exact Hr|].
    apply argmin_int, first_best_lt in Hr. lia.
  - destruct (argfirst_total Qcltb l) as [r Hr].
    { destruct l; simpl in Hs; [lia | congruence]. }
    exists r. split; [exact Hr|].
    apply argmin_float, first_best_lt in Hr. lia.
Qed.

Lemma np_index_total (a : ndarray) (j : nat) :
  Z.of_nat j < size a -> exists x, np_index a (Z.of_nat j) = Ok x.
Proof.
  destruct a as [l | l]; simpl; intros Hj.
  - destruct (nth_error l j) as [x|] eqn:E.
    + exists (I x). rewrite (py_index_nat _ _ _ E). reflexivity.
    + apply nth_error_None in E. lia.
  - destruct (nth_error l j) as [x|] eqn:E.
    + exists (F x). rewrite (py_index_nat _ _ _ E). reflexivity.
    + apply nth_error_None in E. lia.
Qed.

(** ** Distances to a value of the axis *)

Lemma Qcminus_diag (x : Qc) : (x - x = 0)%Qc.
Proof. ring. Qed.

Lemma Qcminus_eq (x y : Qc) : (x - y = 0)%Qc -> x = y.
Proof.
  intros H. replace x with ((x - y) + y)%Qc by ring.
  rewrite H. ring.
Qed.

Lemma Qcabs_diag (x : Qc) : Qcabs (x - x) = 0%Qc.
Proof.
  rewrite Qcminus_diag. apply Qcabs_pos. apply Qcle_refl.
Qed.

(** The first position nearest to a value the list holds is the first
    position that holds it. *)
Lemma nearest_int (l : list Z) (z : Z) (r : nat) :
  In z l ->
  first_best Z.ltb (map Z.abs (map (fun x => x - z) l)) r ->
  nth_error l r = Some z /\
  forall m, (m < r)%nat -> nth_error l m <> Some z.
Proof.
  intros Hin (y & Hy & Hmin & Hfirst).
  rewrite map_map in *.
  rewrite nth_error_map in Hy.
  destruct (nth_error l r) as [x|] eqn:Hx; [|discriminate].
  injection Hy as <-.
  assert (H0 : (Z.abs (z - z) <? Z.abs (x - z)) = false).
  { apply Hmin. apply in_map_iff. exists z. auto. }
  assert (x = z) by lia. subst x.
  split; [reflexivity|].
  intros m Hm Hz.
  specialize (Hfirst m (Z.abs (z - z)) Hm).
  rewrite nth_error_map, Hz in Hfirst. specialize (Hfirst eq_refl). lia.
Qed.

Lemma nearest_float (l : list Qc) (q : Qc) (r : nat) :
  In q l ->
  first_best Qcltb (map Qcabs (map (fun x => x - q)%Qc l)) r ->
  nth_error l r = Some q /\
  forall m, (m < r)%nat -> nth_error l m <> Some q.
Proof.
  intros Hin (y & Hy & Hmin & Hfirst).
  rewrite map_map in *.
  rewrite nth_error_map in Hy.
  destruct (nth_error l r) as [x|] eqn:Hx; [|discriminate].
  injection Hy as <-.
  assert (H0 : Qcltb (Qcabs (q - q)) (Qcabs (x - q)) = false).
  { apply Hmin. apply in_map_iff. exists q. auto. }
  rewrite Qcabs_diag, Qcltb_ge in H0.
  assert (x = q).
  { apply Qcminus_eq, Qcabs_null.
    apply Qcle_antisym; [exact H0 | apply Qcabs_nonneg]. }
  subst x. split; [reflexivity|].
  intros m Hm Hz.
  specialize (Hfirst m (Qcabs (q - q)) Hm).
  rewrite nth_error_map, Hz in Hfirst. specialize (Hfirst eq_refl).
  rewrite Qcabs_diag in Hfirst. rewrite Qcltb_irrefl in Hfirst. discriminate.
Qed.

Lemma py_index_nat_inv {A : Type} (l : list A) (j : nat) (x : A) :
  py_index l (Z.of_nat j) = Ok x -> nth_error l j = Some x.
Proof.
  intros H. apply py_index_Ok in H. destruct H as (j' & Hj' & E).
  rewrite (proj2 (Z.ltb_ge (Z.of_nat j) 0)) in E by lia.
  apply Nat2Z.inj in E. subst j'. exact Hj'.
Qed.

Lemma np_index_in_range (a : ndarray) (i : Z) :
  - size a <= i < size a -> exists x, np_index a i = Ok x.
Proof.
  destruct a as [l | l]; simpl; intros Hi;
    destruct (py_index_in_range l i Hi) as (x & _ & Hx); rewrite Hx; simpl; eauto.
Qed.

(** ** Indexing with integers *)

(** C6: for an integer [i] in range for [S.data] ([-N <= i < N]), [S[i]] is
    the sample [S.data[i]]. *)
Theorem getitem_int (self : Spectrum ndarray) (i : Z) :
  - size (data self) <= i < size (data self) ->
  exists x,
    np_index (data self) i = Ok x /\
    __getitem__ self (Obj (PyInt i)) = Ok (Sample x).
Proof.
  intros Hi. destruct (np_index_in_range _ _ Hi) as [x Hx].
  exists x. split; [exact Hx|].
  simpl. rewrite Hx. reflexivity.
Qed.

Lemma getitem_int_witness :
  - size (data (scenario metre)) <= 2 < size (data (scenario metre)) /\
  exists x,
    np_index (data (scenario metre)) 2 = Ok x /\
    __getitem__ (scenario metre) (Obj (PyInt 2)) = Ok (Sample x).
Proof.
  assert (H : - size (data (scenario metre)) <= 2 < size (data (scenario metre)))
    by (simpl; lia).
  split; [exact H | apply (getitem_int (scenario metre) 2 H)].
Defined.

(** C5: for plain integers [a], [b] and [c], [S[a:b:c]] is the Spectrum of
    [S.data[a:b:c]] and [S.axis[a:b:c]], with the axis unit of [S]:
    [_intify_slice] leaves the slice as it is.  For a non-zero step these are
    the elements the slice selects from the data and from the axis (on a zero
    step numpy raises, on either array and so on the Spectrum). *)
Theorem getitem_int_slice (self : Spectrum ndarray) (a b c : Z) :
  let s := {| start := PyInt a; stop := PyInt b; step := PyInt c |} in
  _intify_slice self s = Ok s /\
  __getitem__ self (Slice s) =
    (newdata <- np_slice (data self) s ;;
     newaxis <- np_slice (axis self) s ;;
     Ok (Spec {| data := newdata; axis := newaxis;
                 axis_unit := axis_unit self |})) /\
  (c <> 0 ->
   np_slice (data self) s = Ok (slice_of (data self) (Some a) (Some b) c) /\
   np_slice (axis self) s = Ok (slice_of (axis self) (Some a) (Some b) c) /\
   __getitem__ self (Slice s) =
     Ok (Spec {| data := slice_of (data self) (Some a) (Some b) c;
                 axis := slice_of (axis self) (Some a) (Some b) c;
                 axis_unit := axis_unit self |})).
Proof.
  intros s.
  assert (Hint : _intify_slice self s = Ok s) by reflexivity.
  assert (Hget : __getitem__ self (Slice s) =
                 (newdata <- np_slice (data self) s ;;
                  newaxis <- np_slice (axis self) s ;;
                  Ok (Spec {| data := newdata; axis := newaxis;
                              axis_unit := axis_unit self |}))).
  { unfold __getitem__. rewrite Hint. reflexivity. }
  split; [exact Hint|]. split; [exact Hget|].
  intros Hc.
  assert (Hs : forall x, np_slice x s = Ok (slice_of x (Some a) (Some b) c)).
  { intros x. unfold np_slice. simpl.
    rewrite (proj2 (Z.eqb_neq c 0) Hc). reflexivity. }
  rewrite Hget, !Hs. auto.
Qed.

Lemma getitem_int_slice_witness :
  2 <> 0 /\
  __getitem__ (scenario metre)
    (Slice {| start := PyInt 1; stop := PyInt 6; step := PyInt 2 |}) =
  Ok (Spec {| data := IntArr [1; 9; 1]; axis := IntArr [1; 3; 5];
              axis_unit := metre |}).
Proof.
  assert (H : 2 <> 0) by lia.
  split; [exact H|].
  apply (proj2 (proj2 (getitem_int_slice (scenario metre) 1 6 2)) H).
Defined.

(** ** Nearest-value conversion *)

(** C7: on an axis value [S.axis[k]] (a bare number, taken to be in the axis
    unit of [S]), [_qty_to_pixel] returns that value: the closest position is
    the first one that holds it. *)
Theorem qty_to_pixel_axis_value (self : Spectrum ndarray) (k : Z) (v : num) :
  np_index (axis self) k = Ok v ->
  _qty_to_pixel self (scalar v) = Ok v /\
  exists j,
    closest_index self v = Ok j /\
    np_index (axis self) (Z.of_nat j) = Ok v /\
    forall m, (m < j)%nat -> np_index (axis self) (Z.of_nat m) <> Ok v.
Proof.
  destruct self as [d [l | l] un]; unfold _qty_to_pixel, closest_index; simpl;
    intros Hk.
  - destruct (py_index l k) as [z|] eqn:Hz; simpl in Hk; [|discriminate].
    injection Hk as <-. simpl.
    apply py_index_Ok in Hz. destruct Hz as (n & Hn & _).
    assert (Hin : In z l) by (eapply nth_error_In; eauto).
    destruct (argfirst_total Z.ltb (map Z.abs (map (fun x => x - z) l)))
      as [r Hr].
    { destruct l; [destruct Hin | discriminate]. }
    rewrite Hr. simpl.
    destruct (nearest_int l z r Hin (argmin_int _ _ Hr)) as [Hnth Hfirst].
    rewrite (py_index_nat _ _ _ Hnth). simpl.
    split; [reflexivity|]. exists r.
    split; [reflexivity|].
    split; [rewrite (py_index_nat _ _ _ Hnth); reflexivity|].
    intros m Hm E.
    destruct (py_index l (Z.of_nat m)) as [y|] eqn:Hy; simpl in E;
      [|discriminate].
    injection E as ->. apply py_index_nat_inv in Hy.
    exact (Hfirst m Hm Hy).
  - destruct (py_index l k) as [q|] eqn:Hq; simpl in Hk; [|discriminate].
    injection Hk as <-. simpl.
    apply py_index_Ok in Hq. destruct Hq as (n & Hn & _).
    assert (Hin : In q l) by (eapply nth_error_In; eauto).
    destruct (argfirst_total Qcltb (map Qcabs (map (fun x => x - q)%Qc l)))
      as [r Hr].
    { destruct l; [destruct Hin | discriminate]. }
    rewrite Hr. simpl.
    destruct (nearest_float l q r Hin (argmin_float _ _ Hr)) as [Hnth Hfirst].
    rewrite (py_index_nat _ _ _ Hnth). simpl.
    split; [reflexivity|]. exists r.
    split; [reflexivity|].
    split; [rewrite (py_index_nat _ _ _ Hnth); reflexivity|].
    intros m Hm E.
    destruct (py_index l (Z.of_nat m)) as [y|] eqn:Hy; simpl in E;
      [|discriminate].
    injection E as ->. apply py_index_nat_inv in Hy.
    exact (Hfirst m Hm Hy).
Qed.

Lemma qty_to_pixel_axis_value_witness :
  np_index (axis downwards) 1 = Ok (I 1) /\
  _qty_to_pixel downwards (PyInt 1) = Ok (I 1).
Proof.
  assert (H : np_index (axis downwards) 1 = Ok (I 1)) by reflexivity.
  split; [exact H | apply (qty_to_pixel_axis_value downwards 1 (I 1) H)].
Defined.

(** ** Rejected indices *)

(** C8: a tuple index raises IndexError, and so does a slice whose step is
    not an integer, whatever its bounds and whatever the arrays hold: no
    element is looked up, and [__getitem__], which only reads, leaves the
    Spectrum as it is.  This holds for the arrays as values and as views on a
    store alike. *)
Theorem getitem_rejects {A : Type} `{Array A} (self : Spectrum A) :
  (forall elts, __getitem__ self (Tuple elts) = Raise IndexError) /\
  (forall s, is_int (step s) = false ->
             _intify_slice self s = Raise IndexError /\
             __getitem__ self (Slice s) = Raise IndexError).
Proof.
  split; [reflexivity|].
  intros s Hc. unfold __getitem__, _intify_slice.
  rewrite Hc. simpl. auto.
Qed.

Lemma getitem_rejects_witness :
  is_int (PyFloat (float 1)) = false /\
  forall st (self : Spectrum view),
    @__getitem__ view (view_Array st) self
      (Slice {| start := PyNone; stop := PyNone; step := PyFloat (float 1) |})
    = Raise IndexError.
Proof.
  assert (H : is_int (PyFloat (float 1)) = false) by reflexivity.
  split; [exact H|].
  intros st self.
  apply (proj2 (@getitem_rejects view (view_Array st) self)
               {| start := PyNone; stop := PyNone; step := PyFloat (float 1) |}
               H).
Defined.

(** C9: a slice without a step raises IndexError, the plain [S[a:b]]
    included: the absent step is not an int. *)
Theorem getitem_slice_without_step {A : Type} `{Array A} (self : Spectrum A)
        (a b : pyobj) :
  __getitem__ self (Slice {| start := a; stop := b; step := PyNone |})
  = Raise IndexError.
Proof.
  reflexivity.
Qed.

(** ** The line guess *)

Lemma size_np_abs (a : ndarray) : size (np_abs a) = size a.
Proof. destruct a; simpl; rewrite length_map; reflexivity. Qed.

Lemma size_np_sub (a : ndarray) (v : num) : size (np_sub a v) = size a.
Proof. destruct a, v; simpl; rewrite length_map; reflexivity. Qed.

Lemma size_from (a : ndarray) (k : nat) :
  Z.of_nat k <= size a -> size (from a k) = size a - Z.of_nat k.
Proof. destruct a; simpl; rewrite length_skipn; lia. Qed.

Lemma size_upto (a : ndarray) (k : nat) :
  Z.of_nat k <= size a -> size (upto a k) = Z.of_nat k.
Proof. destruct a; simpl; rewrite length_firstn; lia. Qed.

Lemma num_sub_diag (r : num) : num_sub r r = I 0 \/ num_sub r r = F 0%Qc.
Proof.
  destruct r as [z | q]; simpl.
  - left. rewrite Z.sub_diag. reflexivity.
  - right. rewrite Qcminus_diag. reflexivity.
Qed.

(** C10: when the maximum of the data is not at position 0, the line guess
    is the maximum, the axis value at its position, and a standard deviation
    of exactly 0: both crossings are the first minimum of the deviations
    from the peak on, so the two axis values subtracted are the same one.
    ([data] and [axis] have the same length, as in every Spectrum.) *)
Theorem make_line_guess_zero_stddev (py : python) (self : Spectrum ndarray)
        (argamp : nat) :
  size (data self) = size (axis self) ->
  argmax (data self) = Ok argamp ->
  argamp <> 0%nat ->
  exists amp mean stddev,
    _make_line_guess py self = Ok (amp, mean, stddev) /\
    np_max (data self) = Ok amp /\
    np_index (axis self) (Z.of_nat argamp) = Ok mean /\
    (stddev = I 0 \/ stddev = F 0%Qc).
Proof.
  intros Hlen Hmax Hpos.
  pose proof (argmax_lt _ _ Hmax) as Hlt.
  destruct (np_index_total (data self) argamp Hlt) as [amp Hamp].
  destruct (np_index_total (axis self) argamp) as [mean Hmean]; [lia|].
  assert (Hnpmax : np_max (data self) = Ok amp).
  { unfold np_max. rewrite Hmax. exact Hamp. }
  unfold _make_line_guess. cbn [contents ndarray_Array].
  rewrite Hnpmax, Hmax. cbn [bind]. rewrite Hmean. cbn [bind].
  set (diffs := np_abs (np_sub (data self) (py_div py amp 2))).
  assert (Hdiffs : size diffs = size (data self)).
  { unfold diffs. rewrite size_np_abs, size_np_sub. reflexivity. }
  assert (Hfrom : 0 < size (from diffs argamp))
    by (rewrite size_from; lia).
  assert (Hupto : 0 < size (upto diffs argamp))
    by (rewrite size_upto; lia).
  rewrite (proj2 (Z.ltb_lt _ _) Hfrom), (proj2 (Z.ltb_lt _ _) Hupto).
  destruct (argmin_total _ Hfrom) as (j & Hj & Hjlt).
  rewrite Hj. cbn [bind].
  rewrite size_from in Hjlt by lia.
  destruct (np_index_total (axis self) j) as [r Hr]; [lia|].
  rewrite Hr. cbn [bind].
  exists amp, mean, (num_sub r r).
  repeat split. apply num_sub_diag.
Qed.

Lemma make_line_guess_zero_stddev_witness :
  (size (data (scenario metre)) = size (axis (scenario metre)) /\
   argmax (data (scenario metre)) = Ok 3%nat /\
   3%nat <> 0%nat) /\
  exists amp mean stddev,
    _make_line_guess Python3 (scenario metre) = Ok (amp, mean, stddev) /\
    np_max (data (scenario metre)) = Ok amp /\
    np_index (axis (scenario metre)) (Z.of_nat 3) = Ok mean /\
    (stddev = I 0 \/ stddev = F 0%Qc).
Proof.
  assert (H1 : size (data (scenario metre)) = size (axis (scenario metre)))
    by reflexivity.
  assert (H2 : argmax (data (scenario metre)) = Ok 3%nat) by reflexivity.
  assert (H3 : 3%nat <> 0%nat) by discriminate.
  split; [auto|].
  apply (make_line_guess_zero_stddev Python3 (scenario metre) 3 H1 H2 H3).
Defined.

(** C2: on the scenario spectrum the line guess is amplitude 9, mean 3 and a
    standard deviation of 0, under either division of [amp / 2] and for any
    unit: both crossings are position 1, the first minimum of the deviations
    [diffs[3:]] counted from the peak, and [axis[1] - axis[1]] is 0, where
    the half-maximum crossings at positions 2 and 4 would give 2. *)
Theorem make_line_guess_scenario (py : python) (L : u.Unit) :
  _make_line_guess py (scenario L) = Ok (I 9, I 3, I 0) /\
  (a <- np_index (axis (scenario L)) 4 ;;
   b <- np_index (axis (scenario L)) 2 ;; Ok (num_sub a b)) = Ok (I 2).
Proof.
  split; [destruct py|]; reflexivity.
Qed.

(** ** Quantities in the unit of the axis *)

Lemma scale_nonzero (L : u.Unit) : u.scale L <> 0%Qc.
Proof.
  unfold u.scale. intros H. apply Q2Qc_eq_iff in H.
  unfold Qeq in H. simpl in H. lia.
Qed.

Lemma physical_type_eqb_refl (t : u.physical_type) :
  u.physical_type_eqb t t = true.
Proof. destruct t; reflexivity. Qed.

Lemma to_same_unit (x : Qc) (L : u.Unit) : u.to (u.mul x L) L = Ok (u.mul x L).
Proof.
  unfold u.to, u.mul. simpl. rewrite physical_type_eqb_refl.
  unfold Qcdiv. rewrite Qcmult_inv_r by apply scale_nonzero.
  rewrite Qcmult_1_r. reflexivity.
Qed.

Lemma qty_to_pixel_own_unit {A : Type} `{Array A} (self : Spectrum A)
      (x : Qc) (L : u.Unit) :
  axis_unit self = L ->
  _qty_to_pixel self (PyQuantity (u.mul x L)) = _qty_to_pixel self (PyFloat x).
Proof.
  intros <-. unfold _qty_to_pixel. rewrite to_same_unit. reflexivity.
Qed.

(** ** Indexing the scenario spectrum *)

(** C3, as amended: with the step written out, [S[2*L:5:1]] takes the stop 5
    in the unit [L] of the start, converts both bounds through
    [_qty_to_pixel] (to the axis values 2 and 5, which on this axis are the
    pixels) and returns the Spectrum of the pixels 2, 3 and 4: from pixel 2 up
    to, and as in every Python slice without, the pixel nearest to [5*L]. *)
Theorem getitem_quantity_start_int_stop (L : u.Unit) :
  let item := {| start := PyQuantity (u.mul (float 2) L);
                 stop := PyInt 5;
                 step := PyInt 1 |} in
  _qty_to_pixel (scenario L) (PyQuantity (u.mul (float 2) L)) = Ok (I 2) /\
  _qty_to_pixel (scenario L) (PyQuantity (u.mul (float 5) L)) = Ok (I 5) /\
  _intify_slice (scenario L) item =
    Ok {| start := PyInt 2; stop := PyInt 5; step := PyInt 1 |} /\
  __getitem__ (scenario L) (Slice item) =
    Ok (Spec {| data := IntArr [4; 9; 4];
                axis := IntArr [2; 3; 4];
                axis_unit := L |}).
Proof.
  intros item.
  assert (H2 : _qty_to_pixel (scenario L) (PyQuantity (u.mul (float 2) L))
               = Ok (I 2)).
  { rewrite qty_to_pixel_own_unit by reflexivity. reflexivity. }
  assert (H5 : _qty_to_pixel (scenario L) (PyQuantity (u.mul (float 5) L))
               = Ok (I 5)).
  { rewrite qty_to_pixel_own_unit by reflexivity. reflexivity. }
  assert (Hs : _intify_slice (scenario L) item =
               Ok {| start := PyInt 2; stop := PyInt 5; step := PyInt 1 |}).
  { unfold _intify_slice, item. cbn [step start stop is_int negb times u.unit u.mul].
    rewrite H2, H5. reflexivity. }
  repeat split; try assumption.
  unfold __getitem__. rewrite Hs. reflexivity.
Qed.

(** C3, as stated: [S[2*L:5]] has no step, and raises IndexError instead of
    returning a Spectrum. *)
Lemma getitem_quantity_start_no_step :
  let item := Slice {| start := PyQuantity (u.mul (float 2) metre);
                       stop := PyInt 5;
                       step := PyNone |} in
  __getitem__ (scenario metre) item = Raise IndexError /\
  ~ exists T, __getitem__ (scenario metre) item = Ok (Spec T).
Proof.
  split; [reflexivity|].
  intros [T HT]. discriminate HT.
Qed.

(** C4: [S[f]] is not the sample at the pixel nearest to [f] but the sample
    at the position given by the nearest axis value.  On the downwards axis
    [[2, 1, 0]] the pixel nearest to [0.0] is 2, where the data holds 7;
    [S[0.0]] is [data[0]], 5.  On the scenario spectrum the axis values are
    the pixels, and [S[2.0]] is 4. *)
Theorem getitem_float_axis_value :
  closest_index downwards (F (float 0)) = Ok 2%nat /\
  np_index (data downwards) 2 = Ok (I 7) /\
  _qty_to_pixel downwards (PyFloat (float 0)) = Ok (I 0) /\
  __getitem__ downwards (Obj (PyFloat (float 0))) = Ok (Sample (I 5)) /\
  __getitem__ (scenario metre) (Obj (PyFloat (float 2))) = Ok (Sample (I 4)).
Proof.
  repeat split; reflexivity.
Qed.

(** ** Slices and the axis transformers *)

Lemma view_slice_base (v v' : view) (s : slice) :
  view_slice v s = Ok v' -> base v' = base v.
Proof.
  unfold view_slice.
  destruct (as_index (step s)) as [c|]; simpl; [|discriminate].
  destruct (_ =? 0); [discriminate|].
  destruct (as_index (start s)); simpl; [|discriminate].
  destruct (as_index (stop s)); simpl; [|discriminate].
  intros [= <-]. reflexivity.
Qed.

Lemma getitem_slice_views (st : store) (S T : Spectrum view) (s : slice) :
  @__getitem__ view (view_Array st) S (Slice s) = Ok (Spec T) ->
  base (data T) = base (data S) /\ base (axis T) = base (axis S) /\
  axis_unit T = axis_unit S.
Proof.
  unfold __getitem__.
  destruct (_intify_slice S s) as [intslice|]; simpl; [|discriminate].
  destruct (view_slice (data S) intslice) as [d|] eqn:Hd; simpl; [|discriminate].
  destruct (view_slice (axis S) intslice) as [x|] eqn:Hx; simpl; [|discriminate].
  intros [= <-]. simpl.
  apply view_slice_base in Hd, Hx. auto.
Qed.

Lemma read_alloc (a : ndarray) (st : store) (v : view) :
  (base v < next st)%nat -> read (snd (alloc a st)) v = read st v.
Proof.
  intros Hv. unfold read, alloc. simpl.
  rewrite (proj2 (Nat.eqb_neq _ _)) by lia. reflexivity.
Qed.

Lemma read_map_to_axis (self : Spectrum view) (f : u.Quantity -> u.Quantity)
      (st : store) (v : view) :
  (base v < next st)%nat -> read (snd (map_to_axis self f st)) v = read st v.
Proof.
  intros Hv. unfold map_to_axis.
  match goal with |- context [alloc ?a st] =>
    rewrite <- (read_alloc a st v Hv); destruct (alloc a st) end.
  reflexivity.
Qed.

(** C1, as amended: the Spectrum a slice returns looks at the buffers of the
    Spectrum it was taken from, and [map_to_axis], which rebinds the axis of
    its receiver to a new list, on either of the two leaves the data and the
    axis of the other as they were. *)
Theorem slice_and_map_to_axis (st : store) (S T : Spectrum view) (s : slice)
        (f : u.Quantity -> u.Quantity) :
  allocated st S ->
  @__getitem__ view (view_Array st) S (Slice s) = Ok (Spec T) ->
  (base (data T) = base (data S) /\ base (axis T) = base (axis S)) /\
  (read (snd (map_to_axis S f st)) (axis T) = read st (axis T) /\
   read (snd (map_to_axis S f st)) (data T) = read st (data T)) /\
  (read (snd (map_to_axis T f st)) (axis S) = read st (axis S) /\
   read (snd (map_to_axis T f st)) (data S) = read st (data S)).
Proof.
  intros [Hd Ha] HT.
  apply getitem_slice_views in HT. destruct HT as (Ed & Ea & _).
  repeat split; auto; apply read_map_to_axis; lia.
Qed.

Lemma slice_and_map_to_axis_witness :
  let s := {| start := PyInt 0; stop := PyInt 2; step := PyInt 1 |} in
  let f := fun q => u.mul (u.value q + float 10)%Qc (u.unit q) in
  (allocated two_buffers parent /\
   @__getitem__ view (view_Array two_buffers) parent (Slice s)
   = Ok (Spec child)) /\
  read (snd (map_to_axis parent f two_buffers)) (axis child)
  = read two_buffers (axis child).
Proof.
  intros s f.
  assert (H1 : allocated two_buffers parent) by (split; simpl; lia).
  assert (H2 : @__getitem__ view (view_Array two_buffers) parent (Slice s)
               = Ok (Spec child)) by reflexivity.
  split; [auto|].
  apply (slice_and_map_to_axis two_buffers parent child s f H1 H2).
Defined.

(** C1, as stated: [shift_axis] adds the offset in place, in the buffer the
    slice looks at too.  After [child = parent[0:2:1]] and
    [parent.shift_axis(1.0)] the axis of [child] is [[1., 2.]], no longer
    [[0., 1.]]. *)
Lemma shift_axis_reaches_slice :
  exists st',
    @__getitem__ view (view_Array two_buffers) parent
      (Slice {| start := PyInt 0; stop := PyInt 2; step := PyInt 1 |})
    = Ok (Spec child) /\
    shift_axis parent (PyFloat (float 1)) two_buffers = Ok st' /\
    read two_buffers (axis child) = FloatArr [float 0; float 1] /\
    read st' (axis child) = FloatArr [float 1; float 2] /\
    read st' (axis child) <> read two_buffers (axis child).
Proof.
  eexists. split; [reflexivity|].
  split.
  - unfold shift_axis. cbn [bind]. rewrite to_same_unit. cbn [bind].
    reflexivity.
  - split; [reflexivity|]. split; [reflexivity|].
    intros E. injection E as E _. discriminate E.
Qed.

(** ** Views and values

    Indexing a Spectrum of views returns what indexing the Spectrum of the
    values it holds returns: the view a slice gives holds the slice of the
    values. *)

Lemma strided_S {A : Type} (l : list A) (lo c : Z) (len : nat) :
  strided l lo c (S len) =
  strided l lo c len ++
  match znth l (lo + Z.of_nat len * c) with Some x => [x] | None => [] end.
Proof.
  unfold strided. rewrite seq_S, flat_map_app. simpl.
  rewrite app_nil_r. reflexivity.
Qed.

Lemma znth_in_range {A : Type} (l : list A) (i : Z) :
  0 <= i < Z.of_nat (length l) -> exists x, znth l i = Some x.
Proof.
  intros Hi. unfold znth. rewrite (proj2 (Z.ltb_ge i 0)) by lia.
  destruct (nth_error l (Z.to_nat i)) as [x|] eqn:E; [eauto|].
  apply nth_error_None in E. lia.
Qed.

Lemma strided_length {A : Type} (l : list A) (lo c : Z) (len : nat) :
  (forall k, (k < len)%nat ->
             0 <= lo + Z.of_nat k * c < Z.of_nat (length l)) ->
  length (strided l lo c len) = len.
Proof.
  induction len as [|len IH]; intros Hin; [reflexivity|].
  rewrite strided_S, length_app, IH by (intros k Hk; apply Hin; lia).
  destruct (znth_in_range l (lo + Z.of_nat len * c)) as [x ->];
    [apply Hin; lia | simpl; lia].
Qed.

Lemma strided_znth {A : Type} (l : list A) (lo c : Z) (len : nat) (i : Z) :
  (forall k, (k < len)%nat ->
             0 <= lo + Z.of_nat k * c < Z.of_nat (length l)) ->
  0 <= i < Z.of_nat len ->
  znth (strided l lo c len) i = znth l (lo + i * c).
Proof.
  induction len as [|len IH]; intros Hin Hi; [lia|].
  assert (Hlen : length (strided l lo c len) = len)
    by (apply strided_length; intros k Hk; apply Hin; lia).
  rewrite strided_S.
  destruct (znth_in_range l (lo + Z.of_nat len * c)) as [x Hx];
    [apply Hin; lia|].
  rewrite Hx.
  destruct (Z.eq_dec i (Z.of_nat len)) as [-> | Hne].
  - rewrite Hx. unfold znth.
    rewrite (proj2 (Z.ltb_ge (Z.of_nat len) 0)) by lia.
    rewrite Nat2Z.id, nth_error_app2 by lia.
    rewrite Hlen, Nat.sub_diag. reflexivity.
  - rewrite <- IH by (try (intros k Hk; apply Hin); lia).
    unfold znth. rewrite (proj2 (Z.ltb_ge i 0)) by lia.
    apply nth_error_app1. lia.
Qed.

(** The positions a slice selects are positions of the sequence. *)
Lemma slice_positions (n : Z) (a b : option Z) (c : Z) (j : Z) :
  0 <= n -> c <> 0 ->
  let lo := slice_start n a c in
  let hi := slice_stop n b c in
  0 <= j < slice_length lo hi c ->
  0 <= lo + j * c < n.
Proof.
  intros Hn Hc lo hi.
  assert (Hlo : if c <? 0 then -1 <= lo <= n - 1 else 0 <= lo <= n).
  { unfold lo, slice_start, adjust. destruct a as [i|];
      repeat match goal with
             | |- context [?x <? ?y] => destruct (Z.ltb_spec x y)
             | |- context [?x <=? ?y] => destruct (Z.leb_spec x y)
             end; lia. }
  assert (Hhi : if c <? 0 then -1 <= hi <= n - 1 else 0 <= hi <= n).
  { unfold hi, slice_stop, adjust. destruct b as [i|];
      repeat match goal with
             | |- context [?x <? ?y] => destruct (Z.ltb_spec x y)
             | |- context [?x <=? ?y] => destruct (Z.leb_spec x y)
             end; lia. }
  clearbody lo hi. unfold slice_length.
  destruct (Z.ltb_spec c 0) as [Hneg | Hpos].
  - destruct (Z.ltb_spec hi lo); [|lia].
    intros Hj.
    pose proof (Z.mul_div_le (lo - hi - 1) (- c) ltac:(lia)).
    nia.
  - destruct (Z.ltb_spec lo hi); [|lia].
    intros Hj.
    pose proof (Z.mul_div_le (hi - lo - 1) c ltac:(lia)).
    nia.
Qed.

Lemma slice_length_nonneg (lo hi c : Z) : 0 <= slice_length lo hi c.
Proof.
  unfold slice_length.
  destruct (Z.ltb_spec c 0); [destruct (Z.ltb_spec hi lo) | destruct (Z.ltb_spec lo hi)];
    try lia.
  - assert (0 <= (lo - hi - 1) / - c) by (apply Z.div_pos; lia). lia.
  - destruct (Z.eq_dec c 0) as [-> | Hc].
    + rewrite Z.div_0_r. lia.
    + assert (0 <= (hi - lo - 1) / c) by (apply Z.div_pos; lia). lia.
Qed.

Lemma strided_strided {A : Type} (l : list A) (off str : Z) (cnt : nat)
      (lo c : Z) (len : nat) :
  (forall k, (k < cnt)%nat ->
             0 <= off + Z.of_nat k * str < Z.of_nat (length l)) ->
  (forall j, 0 <= j < Z.of_nat len -> 0 <= lo + j * c < Z.of_nat cnt) ->
  strided (strided l off str cnt) lo c len
  = strided l (off + lo * str) (str * c) len.
Proof.
  intros Hin. induction len as [|len IH]; intros Hpos; [reflexivity|].
  rewrite !strided_S, IH by (intros j Hj; apply Hpos; lia).
  rewrite strided_znth by (try apply Hpos; try assumption; lia).
  replace (off + (lo + Z.of_nat len * c) * str)
    with (off + lo * str + Z.of_nat len * (str * c)) by ring.
  reflexivity.
Qed.

Lemma py_slice_strided {A : Type} (l : list A) (off str : Z) (cnt : nat)
      (a b : option Z) (c : Z) :
  c <> 0 ->
  (forall k, (k < cnt)%nat ->
             0 <= off + Z.of_nat k * str < Z.of_nat (length l)) ->
  let n := Z.of_nat cnt in
  let lo := slice_start n a c in
  let hi := slice_stop n b c in
  py_slice (strided l off str cnt) a b c
  = strided l (off + lo * str) (str * c) (Z.to_nat (slice_length lo hi c)).
Proof.
  intros Hc Hin n lo hi. unfold py_slice.
  rewrite (strided_length l off str cnt Hin). fold n lo hi.
  apply strided_strided; [exact Hin|].
  intros j Hj. apply (slice_positions n a b c j); [lia | exact Hc|].
  fold lo hi. pose proof (slice_length_nonneg lo hi c). lia.
Qed.

Lemma read_view_slice (st : store) (v : view) (s : slice) :
  in_bounds st v ->
  np_slice (read st v) s = (v' <- view_slice v s ;; Ok (read st v')).
Proof.
  intros Hin. unfold np_slice, view_slice.
  destruct (as_index (step s)) as [c|]; simpl; [|reflexivity].
  set (c' := match c with Some x => x | None => 1 end).
  destruct (Z.eqb_spec c' 0) as [|Hc]; [reflexivity|].
  destruct (as_index (start s)) as [a|]; simpl; [|reflexivity].
  destruct (as_index (stop s)) as [b|]; simpl; [|reflexivity].
  f_equal. unfold read, in_bounds in *. simpl.
  destruct (buffer st (base v)) as [l | l]; simpl in *;
    rewrite py_slice_strided by assumption; reflexivity.
Qed.

Lemma view_slice_in_bounds (st : store) (v v' : view) (s : slice) :
  in_bounds st v -> view_slice v s = Ok v' -> in_bounds st v'.
Proof.
  intros Hin. unfold view_slice.
  destruct (as_index (step s)) as [c|]; simpl; [|discriminate].
  set (c' := match c with Some x => x | None => 1 end).
  destruct (Z.eqb_spec c' 0) as [|Hc]; [discriminate|].
  destruct (as_index (start s)) as [a|]; simpl; [|discriminate].
  destruct (as_index (stop s)) as [b|]; simpl; [|discriminate].
  intros [= <-]. intros k Hk. simpl in *.
  set (n := Z.of_nat (count v)) in *.
  set (lo := slice_start n a c') in *.
  set (hi := slice_stop n b c') in *.
  assert (Hpos : 0 <= lo + Z.of_nat k * c' < n).
  { apply (slice_positions n a b c' (Z.of_nat k)); [lia | exact Hc|].
    fold lo hi. pose proof (slice_length_nonneg lo hi c'). lia. }
  specialize (Hin (Z.to_nat (lo + Z.of_nat k * c')) ltac:(lia)).
  rewrite Z2Nat.id in Hin by lia.
  replace (offset v + lo * stride v + Z.of_nat k * (stride v * c'))
    with (offset v + (lo + Z.of_nat k * c') * stride v) by ring.
  exact Hin.
Qed.

(** Indexing views is indexing values: what [__getitem__] returns on a
    Spectrum of views holds what it returns on the values held. *)
Theorem getitem_views_values (st : store) (S : Spectrum view) (item : index) :
  in_bounds st (data S) -> in_bounds st (axis S) ->
  __getitem__ (snapshot st S) item
  = (v <- @__getitem__ view (view_Array st) S item ;;
     Ok (snapshot_value st v)).
Proof.
  intros Hd Ha. destruct item as [o | s | elts]; [| |reflexivity].
  - destruct o as [| i | f | q]; [reflexivity| | |].
    + unfold __getitem__. simpl.
      destruct (np_index (read st (data S)) i); reflexivity.
    + unfold __getitem__.
      change (_qty_to_pixel (snapshot st S) (times (PyFloat f) (axis_unit (snapshot st S))))
        with (@_qty_to_pixel view (view_Array st) S (times (PyFloat f) (axis_unit S))).
      destruct (@_qty_to_pixel view (view_Array st) S _) as [pixel|];
        [|reflexivity].
      simpl. destruct (np_getitem (read st (data S)) pixel); reflexivity.
    + unfold __getitem__.
      change (_qty_to_pixel (snapshot st S) (PyQuantity q))
        with (@_qty_to_pixel view (view_Array st) S (PyQuantity q)).
      destruct (@_qty_to_pixel view (view_Array st) S _) as [pixel|];
        [|reflexivity].
      simpl. destruct (np_getitem (read st (data S)) pixel); reflexivity.
  - unfold __getitem__.
    change (_intify_slice (snapshot st S) s)
      with (@_intify_slice view (view_Array st) S s).
    destruct (@_intify_slice view (view_Array st) S s) as [intslice|];
      [|reflexivity].
    cbn [bind getslice ndarray_Array view_Array snapshot data axis].
    rewrite (read_view_slice st (data S) intslice Hd).
    destruct (view_slice (data S) intslice) as [d|]; [|reflexivity].
    cbn [bind].
    rewrite (read_view_slice st (axis S) intslice Ha).
    destruct (view_slice (axis S) intslice) as [x|]; reflexivity.
Qed.

(** ** The model on small inputs *)

Example py_slice_forward :
  py_slice [10; 11; 12; 13; 14; 15; 16] (Some 2) (Some 5) 1 = [12; 13; 14].
Proof. reflexivity. Qed.

Example py_slice_from_the_end :
  py_slice [10; 11; 12; 13; 14; 15; 16] (Some (-3)) None 1 = [14; 15; 16].
Proof. reflexivity. Qed.

Example py_slice_backward :
  py_slice [10; 11; 12; 13; 14; 15; 16] None None (-2) = [16; 14; 12; 10].
Proof. reflexivity. Qed.

Example py_slice_clipped :
  py_slice [10; 11; 12] (Some (-7)) (Some 9) 2 = [10; 12].
Proof. reflexivity. Qed.

Example py_index_last : py_index [10; 11; 12] (-1) = Ok 12.
Proof. reflexivity. Qed.

Example py_index_out_of_range : py_index [10; 11; 12] 3 = Raise IndexError.
Proof. reflexivity. Qed.

Example argmin_first_occurrence : argmin (IntArr [3; 1; 2; 1]) = Ok 1%nat.
Proof. reflexivity. Qed.

Example argmax_first_occurrence : argmax (IntArr [3; 5; 2; 5]) = Ok 1%nat.
Proof. reflexivity. Qed.

Example argmin_empty : argmin (FloatArr []) = Raise ValueError.
Proof. reflexivity. Qed.

Example kilometres_to_metres :
  u.to (u.mul (float 2) kilometre) metre = Ok (u.mul (float 2000) metre).
Proof. reflexivity. Qed.

Example hertz_to_metres :
  u.to (u.mul (float 2) hertz) metre = Raise UnitConversionError.
Proof. reflexivity. Qed.

(** [S[0.002 * u.km]] on the scenario spectrum in metres. *)
Example getitem_quantity_other_unit :
  __getitem__ (scenario metre)
    (Obj (PyQuantity (u.mul (Q2Qc (2 # 1000)) kilometre)))
  = Ok (Sample (I 4)).
Proof. reflexivity. Qed.

Example getitem_quantity_other_type :
  __getitem__ (scenario metre) (Obj (PyQuantity (u.mul (float 2) hertz)))
  = Raise UnitConversionError.
Proof. reflexivity. Qed.

(** On a float axis the axis value [_qty_to_pixel] returns is no index. *)
Example getitem_float_on_float_axis :
  __getitem__ (snapshot two_buffers parent) (Obj (PyFloat (float 1)))
  = Raise IndexError.
Proof. reflexivity. Qed.

(** A bound without a counterpart in the unit: [S[2*L::1]] subtracts [None]
    from the axis. *)
Example getitem_quantity_start_no_stop :
  __getitem__ (scenario metre)
    (Slice {| start := PyQuantity (u.mul (float 2) metre);
              stop := PyNone; step := PyInt 1 |})
  = Raise TypeError.
Proof. reflexivity. Qed.

Example getitem_zero_step :
  __getitem__ (scenario metre)
    (Slice {| start := PyInt 1; stop := PyInt 6; step := PyInt 0 |})
  = Raise ValueError.
Proof. reflexivity. Qed.

Example shift_axis_on_integer_axis :
  shift_axis
    {| data := {| base := 0; offset := 0; stride := 1; count := 3 |};
       axis := {| base := 0; offset := 0; stride := 1; count := 3 |};
       axis_unit := metre |}
    (PyInt 1)
    {| next := 1; buffer := fun _ => IntArr [0; 1; 2] |}
  = Raise TypeError.
Proof. reflexivity. Qed.

(** * Further properties of the code *)

(** ** Integers as floats *)

Lemma this_Q2Qc (q : Q) : this (Q2Qc q) == q.
Proof. unfold Q2Qc. cbn [this]. apply Qred_correct. Qed.
Lemma float_sub (a b : Z) : float (a - b) = (float a - float b)%Qc.
Proof.
  unfold float, Qcminus, Qcplus, Qcopp. apply Q2Qc_eq_iff.
  rewrite !this_Q2Qc. unfold Z.sub.
  rewrite inject_Z_plus, inject_Z_opp. reflexivity.
Qed.
Lemma float_abs (a : Z) : float (Z.abs a) = Qcabs (float a).
Proof.
  apply Qc_is_canon. unfold Qcabs. cbn [this]. unfold float.
  rewrite !this_Q2Qc. reflexivity.
Qed.
Lemma float_le (a b : Z) : a <= b <-> (float a <= float b)%Qc.
Proof.
  unfold Qcle, float. rewrite !this_Q2Qc.
  rewrite Zle_Qle. reflexivity.
Qed.

Lemma float_lt (a b : Z) : a < b <-> (float a < float b)%Qc.
Proof.
  unfold Qclt, float. rewrite !this_Q2Qc.
  rewrite Zlt_Qlt. reflexivity.
Qed.

Lemma dist_int (a v : Z) : dist (I a) (I v) = float (Z.abs (a - v)).
Proof.
  unfold dist. simpl. rewrite float_abs, float_sub. reflexivity.
Qed.

(** ** The closest axis value *)

Lemma first_best_map {A B : Type} (better : B -> B -> bool) (f : A -> B)
      (l : list A) (j : nat) :
  first_best better (map f l) j ->
  exists x,
    nth_error l j = Some x /\
    forall m a, nth_error l m = Some a ->
                better (f a) (f x) = false /\
                ((m < j)%nat -> better (f x) (f a) = true).
Proof.
  intros (y & Hy & Hmin & Hfirst).
  rewrite nth_error_map in Hy.
  destruct (nth_error l j) as [x|] eqn:Hx; [|discriminate].
  injection Hy as <-. exists x. split; [reflexivity|].
  intros m a Ha. split.
  - apply Hmin. apply in_map. eapply nth_error_In; eauto.
  - intros Hm. apply (Hfirst m); [exact Hm|].
    rewrite nth_error_map, Ha. reflexivity.
Qed.

Lemma qty_to_pixel_scalar {A : Type} `{Array A} (self : Spectrum A) (v : num) :
  _qty_to_pixel self (scalar v)
  = (j <- closest_index self v ;;
     np_index (contents (axis self)) (Z.of_nat j)).
Proof. destruct v; reflexivity. Qed.

Lemma np_index_nat_int (l : list Z) (m : nat) (a : num) :
  np_index (IntArr l) (Z.of_nat m) = Ok a ->
  exists x, a = I x /\ nth_error l m = Some x.
Proof.
  simpl. destruct (py_index l (Z.of_nat m)) as [x|] eqn:E; simpl; [|discriminate].
  intros [= <-]. exists x. split; [reflexivity|].
  apply py_index_nat_inv. exact E.
Qed.

Lemma np_index_nat_float (l : list Qc) (m : nat) (a : num) :
  np_index (FloatArr l) (Z.of_nat m) = Ok a ->
  exists x, a = F x /\ nth_error l m = Some x.
Proof.
  simpl. destruct (py_index l (Z.of_nat m)) as [x|] eqn:E; simpl; [|discriminate].
  intros [= <-]. exists x. split; [reflexivity|].
  apply py_index_nat_inv. exact E.
Qed.

(** X1: the value [_qty_to_pixel] returns for a number is the axis value
    closest to it: no axis value is nearer, and those before it on the axis
    are strictly farther (of equally near values the first is taken). *)
Theorem qty_to_pixel_closest (self : Spectrum ndarray) (v r : num) :
  _qty_to_pixel self (scalar v) = Ok r ->
  exists j,
    closest_index self v = Ok j /\
    np_index (axis self) (Z.of_nat j) = Ok r /\
    forall m a,
      np_index (axis self) (Z.of_nat m) = Ok a ->
      (dist r v <= dist a v)%Qc /\
      ((m < j)%nat -> (dist r v < dist a v)%Qc).
Proof.
  rewrite qty_to_pixel_scalar. cbn [contents ndarray_Array].
  destruct (closest_index self v) as [j|] eqn:Hj; cbn [bind]; [|discriminate].
  intros Hr. exists j. split; [reflexivity|]. split; [exact Hr|].
  unfold closest_index in Hj. cbn [contents ndarray_Array] in Hj.
  destruct (axis self) as [l | l]; [destruct v as [z | q]|].
  - apply argmin_int in Hj. simpl in Hj. rewrite map_map in Hj.
    apply first_best_map in Hj. destruct Hj as (x & Hx & Hbest).
    apply np_index_nat_int in Hr. destruct Hr as (x' & -> & Hx').
    assert (x' = x) by congruence. subst x'.
    intros m a Ha. apply np_index_nat_int in Ha.
    destruct Ha as (y & -> & Hy).
    destruct (Hbest m y Hy) as [Hle Hlt]. cbv beta in Hle, Hlt.
    rewrite !dist_int. split.
    + apply (proj1 (float_le _ _)). lia.
    + intros Hm. apply (proj1 (float_lt _ _)). specialize (Hlt Hm). lia.
  - apply argmin_float in Hj. simpl in Hj. rewrite map_map in Hj.
    apply first_best_map in Hj. destruct Hj as (x & Hx & Hbest).
    apply np_index_nat_int in Hr. destruct Hr as (x' & -> & Hx').
    assert (x' = x) by congruence. subst x'.
    intros m a Ha. apply np_index_nat_int in Ha.
    destruct Ha as (y & -> & Hy).
    destruct (Hbest m y Hy) as [Hle Hlt]. cbv beta in Hle, Hlt.
    unfold dist. simpl. split.
    + apply Qcltb_ge. exact Hle.
    + intros Hm. apply Qcltb_lt. exact (Hlt Hm).
  - apply argmin_float in Hj. simpl in Hj. rewrite map_map in Hj.
    apply first_best_map in Hj. destruct Hj as (x & Hx & Hbest).
    apply np_index_nat_float in Hr. destruct Hr as (x' & -> & Hx').
    assert (x' = x) by congruence. subst x'.
    intros m a Ha. apply np_index_nat_float in Ha.
    destruct Ha as (y & -> & Hy).
    destruct (Hbest m y Hy) as [Hle Hlt]. cbv beta in Hle, Hlt.
    unfold dist. simpl. split.
    + apply Qcltb_ge. exact Hle.
    + intros Hm. apply Qcltb_lt. exact (Hlt Hm).
Qed.

Lemma qty_to_pixel_closest_witness :
  _qty_to_pixel downwards (scalar (F (Q2Qc (7 # 5)))) = Ok (I 1) /\
  exists j,
    closest_index downwards (F (Q2Qc (7 # 5))) = Ok j /\
    np_index (axis downwards) (Z.of_nat j) = Ok (I 1) /\
    forall m a,
      np_index (axis downwards) (Z.of_nat m) = Ok a ->
      (dist (I 1) (F (Q2Qc (7 # 5))) <= dist a (F (Q2Qc (7 # 5))))%Qc /\
      ((m < j)%nat ->
       (dist (I 1) (F (Q2Qc (7 # 5))) < dist a (F (Q2Qc (7 # 5))))%Qc).
Proof.
  assert (H : _qty_to_pixel downwards (scalar (F (Q2Qc (7 # 5)))) = Ok (I 1))
    by reflexivity.
  split; [exact H|].
  apply (qty_to_pixel_closest downwards (F (Q2Qc (7 # 5))) (I 1) H).
Defined.

Lemma closest_index_total {A : Type} `{Array A} (self : Spectrum A) (v : num) :
  0 < size (contents (axis self)) ->
  exists j, closest_index self v = Ok j /\
            Z.of_nat j < size (contents (axis self)).
Proof.
  intros Hs. unfold closest_index.
  destruct (argmin_total (np_abs (np_sub (contents (axis self)) v)))
    as (j & Hj & Hlt).
  - rewrite size_np_abs, size_np_sub. exact Hs.
  - rewrite size_np_abs, size_np_sub in Hlt. eauto.
Qed.

Lemma closest_index_empty {A : Type} `{Array A} (self : Spectrum A) (v : num) :
  size (contents (axis self)) = 0 -> closest_index self v = Raise ValueError.
Proof.
  unfold closest_index. intros Hs.
  destruct (contents (axis self)) as [[|x l] | [|x l]]; simpl in Hs;
    try lia; destruct v; reflexivity.
Qed.

(** What [_qty_to_pixel] looks for, for a bound the axis unit can take. *)
Lemma qty_to_pixel_convertible {A : Type} `{Array A} (self : Spectrum A)
      (o : pyobj) :
  convertible (axis_unit self) o = true ->
  exists v, _qty_to_pixel self o = _qty_to_pixel self (scalar v).
Proof.
  destruct o as [| z | x | q]; simpl; intros Hc; [discriminate| | |].
  - exists (I z). reflexivity.
  - exists (F x). reflexivity.
  - exists (F (u.value q * (u.scale (u.unit q) / u.scale (axis_unit self)))%Qc).
    unfold _qty_to_pixel, u.to. rewrite Hc. reflexivity.
Qed.

(** X2: on an axis that is not empty [_qty_to_pixel] returns, for every
    number and every Quantity of the physical type of the axis, and what it
    returns is a value of the axis. *)
Theorem qty_to_pixel_returns_axis_value (self : Spectrum ndarray) (o : pyobj) :
  0 < size (axis self) ->
  convertible (axis_unit self) o = true ->
  exists r j,
    _qty_to_pixel self o = Ok r /\
    np_index (axis self) (Z.of_nat j) = Ok r.
Proof.
  intros Hs Hc.
  destruct (qty_to_pixel_convertible self o Hc) as [v ->].
  rewrite qty_to_pixel_scalar. cbn [contents ndarray_Array].
  destruct (@closest_index_total ndarray ndarray_Array self v Hs)
    as (j & Hj & Hlt).
  destruct (np_index_total (axis self) j Hlt) as [r Hr].
  exists r, j. rewrite Hj. cbn [bind]. auto.
Qed.

Lemma qty_to_pixel_returns_axis_value_witness :
  (0 < size (axis (scenario metre)) /\
   convertible (axis_unit (scenario metre))
     (PyQuantity (u.mul (Q2Qc (3 # 1000)) kilometre)) = true) /\
  exists r j,
    _qty_to_pixel (scenario metre)
      (PyQuantity (u.mul (Q2Qc (3 # 1000)) kilometre)) = Ok r /\
    np_index (axis (scenario metre)) (Z.of_nat j) = Ok r.
Proof.
  assert (H1 : 0 < size (axis (scenario metre))) by (simpl; lia).
  assert (H2 : convertible (axis_unit (scenario metre))
                 (PyQuantity (u.mul (Q2Qc (3 # 1000)) kilometre)) = true)
    by reflexivity.
  split; [auto|].
  apply (qty_to_pixel_returns_axis_value (scenario metre) _ H1 H2).
Defined.

(** X3: the errors of [_qty_to_pixel].  On an empty axis a number or a
    Quantity of the physical type of the axis raises ValueError (there is no
    closest value); a Quantity of another physical type raises
    UnitConversionError, whatever the axis holds. *)
Theorem qty_to_pixel_errors (self : Spectrum ndarray) :
  (size (axis self) = 0 ->
   forall o, convertible (axis_unit self) o = true ->
             _qty_to_pixel self o = Raise ValueError) /\
  (forall q, convertible (axis_unit self) (PyQuantity q) = false ->
             _qty_to_pixel self (PyQuantity q) = Raise UnitConversionError).
Proof.
  split.
  - intros Hs o Hc.
    destruct (qty_to_pixel_convertible self o Hc) as [v ->].
    rewrite qty_to_pixel_scalar.
    rewrite (@closest_index_empty ndarray ndarray_Array self v Hs).
    reflexivity.
  - intros q Hc. simpl in Hc. unfold _qty_to_pixel, u.to.
    rewrite Hc. reflexivity.
Qed.

Lemma qty_to_pixel_errors_witness :
  (size (axis {| data := IntArr []; axis := FloatArr []; axis_unit := metre |})
   = 0 /\
   convertible metre (PyFloat (float 1)) = true /\
   convertible metre (PyQuantity (u.mul (float 1) hertz)) = false) /\
  _qty_to_pixel {| data := IntArr []; axis := FloatArr []; axis_unit := metre |}
    (PyFloat (float 1)) = Raise ValueError /\
  _qty_to_pixel (scenario metre) (PyQuantity (u.mul (float 1) hertz))
  = Raise UnitConversionError.
Proof.
  assert (H1 : size (axis {| data := IntArr []; axis := FloatArr [];
                             axis_unit := metre |}) = 0) by reflexivity.
  assert (H2 : convertible metre (PyFloat (float 1)) = true) by reflexivity.
  assert (H3 : convertible metre (PyQuantity (u.mul (float 1) hertz)) = false)
    by reflexivity.
  split; [auto|]. split.
  - apply (proj1 (qty_to_pixel_errors _) H1 _ H2).
  - apply (proj2 (qty_to_pixel_errors (scenario metre)) _ H3).
Defined.

Lemma qty_to_pixel_total {A : Type} `{Array A} (self : Spectrum A) (o : pyobj) :
  0 < size (contents (axis self)) ->
  convertible (axis_unit self) o = true ->
  exists r j,
    _qty_to_pixel self o = Ok r /\
    np_index (contents (axis self)) (Z.of_nat j) = Ok r.
Proof.
  intros Hs Hc.
  destruct (qty_to_pixel_convertible self o Hc) as [v ->].
  rewrite qty_to_pixel_scalar.
  destruct (closest_index_total self v Hs) as (j & Hj & Hlt).
  destruct (np_index_total (contents (axis self)) j Hlt) as [r Hr].
  exists r, j. rewrite Hj. cbn [bind]. auto.
Qed.

Lemma convertible_times (un : u.Unit) (o : pyobj) :
  is_number o = true -> convertible un (times o un) = true.
Proof.
  destruct o; simpl; try discriminate; intros _;
    apply physical_type_eqb_refl.
Qed.

(** ** Indexing out of range, and with values on a float axis *)

Lemma py_index_beyond {A : Type} (l : list A) (i : Z) :
  i < - Z.of_nat (length l) \/ Z.of_nat (length l) <= i ->
  py_index l i = Raise IndexError.
Proof.
  intros Hi. unfold py_index, znth.
  destruct (Z.ltb_spec i 0).
  - destruct (Z.ltb_spec (i + Z.of_nat (length l)) 0); [reflexivity|].
    lia.
  - rewrite (proj2 (Z.ltb_ge i 0)) by lia.
    destruct (nth_error l (Z.to_nat i)) eqn:E; [|reflexivity].
    assert (Z.to_nat i < length l)%nat by (apply nth_error_Some; congruence).
    lia.
Qed.

(** X4: an integer index out of the range of the data ([i < -N] or
    [i >= N]) raises IndexError. *)
Theorem getitem_int_out_of_range (self : Spectrum ndarray) (i : Z) :
  i < - size (data self) \/ size (data self) <= i ->
  __getitem__ self (Obj (PyInt i)) = Raise IndexError.
Proof.
  intros Hi. unfold __getitem__. cbn [contents ndarray_Array].
  destruct (data self) as [l | l]; simpl in *;
    rewrite py_index_beyond by exact Hi; reflexivity.
Qed.

Lemma getitem_int_out_of_range_witness :
  (7 < - size (data (scenario metre)) \/ size (data (scenario metre)) <= 7) /\
  __getitem__ (scenario metre) (Obj (PyInt 7)) = Raise IndexError.
Proof.
  assert (H : 7 < - size (data (scenario metre))
              \/ size (data (scenario metre)) <= 7) by (right; simpl; lia).
  split; [exact H | apply (getitem_int_out_of_range (scenario metre) 7 H)].
Defined.

Lemma np_index_float_axis (l : list Qc) (i : Z) (r : num) :
  np_index (FloatArr l) i = Ok r -> exists x, r = F x.
Proof.
  simpl. destruct (py_index l i); simpl; [|discriminate].
  intros [= <-]. eauto.
Qed.

Lemma np_index_int_axis (l : list Z) (i : Z) (r : num) :
  np_index (IntArr l) i = Ok r -> exists x, r = I x.
Proof.
  simpl. destruct (py_index l i); simpl; [|discriminate].
  intros [= <-]. eauto.
Qed.

Lemma size_nonempty_float (l : list Qc) : l <> [] -> 0 < size (FloatArr l).
Proof. destruct l; simpl; [congruence | lia]. Qed.

Lemma size_nonempty_int (l : list Z) : l <> [] -> 0 < size (IntArr l).
Proof. destruct l; simpl; [congruence | lia]. Qed.

(** X5: on a float axis indexing with a float or with a Quantity never
    gives a sample: [_qty_to_pixel] returns the closest axis value, a float,
    and numpy takes no float for an index.  With an axis that is not empty
    and an index the axis unit can take, the error is IndexError. *)
Theorem getitem_value_on_float_axis (self : Spectrum ndarray) (l : list Qc)
        (o : pyobj) :
  axis self = FloatArr l -> l <> [] ->
  is_int o = false ->
  convertible (axis_unit self) o = true ->
  __getitem__ self (Obj o) = Raise IndexError.
Proof.
  intros Hax Hl Hint Hc.
  assert (Hs : 0 < size (contents (axis self))).
  { cbn [contents ndarray_Array]. rewrite Hax. apply size_nonempty_float, Hl. }
  assert (Hgo : forall q, convertible (axis_unit self) q = true ->
                  (pixel <- _qty_to_pixel self q ;;
                   x <- np_getitem (contents (data self)) pixel ;;
                   Ok (Sample x)) = (Raise IndexError : result (value ndarray))).
  { intros q Hq.
    destruct (qty_to_pixel_total self q Hs Hq) as (r & j & Hr & Hj).
    cbn [contents ndarray_Array] in Hj. rewrite Hax in Hj.
    apply np_index_float_axis in Hj. destruct Hj as [x ->].
    rewrite Hr. reflexivity. }
  destruct o as [| z | f | q]; try discriminate; unfold __getitem__.
  - apply Hgo. apply (convertible_times (axis_unit self) (PyFloat f)).
    reflexivity.
  - apply Hgo. exact Hc.
Qed.

Lemma getitem_value_on_float_axis_witness :
  (axis (snapshot two_buffers parent) = FloatArr [float 0; float 1; float 2] /\
   [float 0; float 1; float 2] <> [] /\
   is_int (PyFloat (float 1)) = false /\
   convertible (axis_unit (snapshot two_buffers parent)) (PyFloat (float 1))
   = true) /\
  __getitem__ (snapshot two_buffers parent) (Obj (PyFloat (float 1)))
  = Raise IndexError.
Proof.
  assert (H1 : axis (snapshot two_buffers parent)
               = FloatArr [float 0; float 1; float 2]) by reflexivity.
  assert (H2 : [float 0; float 1; float 2] <> []) by discriminate.
  assert (H3 : is_int (PyFloat (float 1)) = false) by reflexivity.
  assert (H4 : convertible (axis_unit (snapshot two_buffers parent))
                 (PyFloat (float 1)) = true) by reflexivity.
  split; [auto|].
  apply (getitem_value_on_float_axis _ _ _ H1 H2 H3 H4).
Defined.

(** ** Slices whose bounds carry values *)

(** With an integer step, two bounds the axis unit can take and not both of
    them ints, [_intify_slice] sends both bounds through [_qty_to_pixel]. *)
Lemma intify_slice_resolved {A : Type} `{Array A} (self : Spectrum A)
      (item : slice) :
  is_int (step item) = true ->
  convertible (axis_unit self) (start item) = true ->
  convertible (axis_unit self) (stop item) = true ->
  is_int (start item) && is_int (stop item) = false ->
  exists qa qb,
    convertible (axis_unit self) qa = true /\
    convertible (axis_unit self) qb = true /\
    _intify_slice self item =
      (a <- _qty_to_pixel self qa ;;
       b <- _qty_to_pixel self qb ;;
       Ok {| start := scalar a; stop := scalar b; step := step item |}).
Proof.
  destruct item as [a b c]. cbn [start stop step].
  intros Hstep Ha Hb Hnot. unfold _intify_slice. cbn [start stop step].
  rewrite Hstep. cbn [negb].
  destruct a as [| za | xa | qa]; try discriminate Ha;
    destruct b as [| zb | xb | qb]; try discriminate Hb;
    try discriminate Hnot; cbn [times u.unit u.mul];
    eexists _, _; (split; [|split; [|reflexivity]]);
    simpl in *; auto using physical_type_eqb_refl.
Qed.

(** X6: on a float axis a slice with a float or a Quantity among its bounds
    never gives a Spectrum: the bounds [_intify_slice] returns are axis
    values, floats, and numpy takes no float for a slice bound.  With an axis
    that is not empty, a non-zero integer step and bounds the axis unit can
    take, the error is TypeError. *)
Theorem getitem_slice_on_float_axis (self : Spectrum ndarray) (l : list Qc)
        (a b : pyobj) (c : Z) :
  axis self = FloatArr l -> l <> [] ->
  c <> 0 ->
  convertible (axis_unit self) a = true ->
  convertible (axis_unit self) b = true ->
  is_int a && is_int b = false ->
  __getitem__ self (Slice {| start := a; stop := b; step := PyInt c |})
  = Raise TypeError.
Proof.
  intros Hax Hl Hc Ha Hb Hnot.
  assert (Hs : 0 < size (contents (axis self))).
  { cbn [contents ndarray_Array]. rewrite Hax. apply size_nonempty_float, Hl. }
  destruct (intify_slice_resolved self
              {| start := a; stop := b; step := PyInt c |} eq_refl Ha Hb Hnot)
    as (qa & qb & Hqa & Hqb & Hint).
  destruct (qty_to_pixel_total self qa Hs Hqa) as (ra & ja & Hra & Hja).
  destruct (qty_to_pixel_total self qb Hs Hqb) as (rb & jb & Hrb & Hjb).
  cbn [contents ndarray_Array] in Hja, Hjb. rewrite Hax in Hja, Hjb.
  apply np_index_float_axis in Hja, Hjb.
  destruct Hja as [xa ->]. destruct Hjb as [xb ->].
  unfold __getitem__. rewrite Hint, Hra, Hrb.
  cbn [bind scalar getslice ndarray_Array step]. unfold np_slice.
  cbn [step start stop as_index bind].
  rewrite (proj2 (Z.eqb_neq c 0) Hc). reflexivity.
Qed.

Lemma getitem_slice_on_float_axis_witness :
  (axis (snapshot two_buffers parent) = FloatArr [float 0; float 1; float 2] /\
   [float 0; float 1; float 2] <> [] /\
   1 <> 0 /\
   convertible (axis_unit (snapshot two_buffers parent)) (PyFloat (float 0))
   = true /\
   convertible (axis_unit (snapshot two_buffers parent)) (PyInt 2) = true /\
   is_int (PyFloat (float 0)) && is_int (PyInt 2) = false) /\
  __getitem__ (snapshot two_buffers parent)
    (Slice {| start := PyFloat (float 0); stop := PyInt 2; step := PyInt 1 |})
  = Raise TypeError.
Proof.
  assert (H1 : axis (snapshot two_buffers parent)
               = FloatArr [float 0; float 1; float 2]) by reflexivity.
  assert (H2 : [float 0; float 1; float 2] <> []) by discriminate.
  assert (H3 : 1 <> 0) by lia.
  assert (H4 : convertible (axis_unit (snapshot two_buffers parent))
                 (PyFloat (float 0)) = true) by reflexivity.
  assert (H5 : convertible (axis_unit (snapshot two_buffers parent))
                 (PyInt 2) = true) by reflexivity.
  assert (H6 : is_int (PyFloat (float 0)) && is_int (PyInt 2) = false)
    by reflexivity.
  split; [repeat split; assumption|].
  apply (getitem_slice_on_float_axis _ _ _ _ _ H1 H2 H3 H4 H5 H6).
Defined.

(** X7: on an integer axis that is not empty, a slice with a non-zero
    integer step and two bounds the axis unit can take, not both of them
    ints, gives a Spectrum: [_intify_slice] returns a slice of two axis
    values, and they are used as the positions of the slice. *)
Theorem getitem_slice_on_int_axis (self : Spectrum ndarray) (l : list Z)
        (a b : pyobj) (c : Z) :
  axis self = IntArr l -> l <> [] ->
  c <> 0 ->
  convertible (axis_unit self) a = true ->
  convertible (axis_unit self) b = true ->
  is_int a && is_int b = false ->
  exists va vb,
    In va l /\ In vb l /\
    _intify_slice self {| start := a; stop := b; step := PyInt c |}
    = Ok {| start := PyInt va; stop := PyInt vb; step := PyInt c |} /\
    __getitem__ self (Slice {| start := a; stop := b; step := PyInt c |})
    = Ok (Spec {| data := slice_of (data self) (Some va) (Some vb) c;
                  axis := slice_of (axis self) (Some va) (Some vb) c;
                  axis_unit := axis_unit self |}).
Proof.
  intros Hax Hl Hc Ha Hb Hnot.
  assert (Hs : 0 < size (contents (axis self))).
  { cbn [contents ndarray_Array]. rewrite Hax. apply size_nonempty_int, Hl. }
  destruct (intify_slice_resolved self
              {| start := a; stop := b; step := PyInt c |} eq_refl Ha Hb Hnot)
    as (qa & qb & Hqa & Hqb & Hint).
  destruct (qty_to_pixel_total self qa Hs Hqa) as (ra & ja & Hra & Hja).
  destruct (qty_to_pixel_total self qb Hs Hqb) as (rb & jb & Hrb & Hjb).
  cbn [contents ndarray_Array] in Hja, Hjb. rewrite Hax in Hja, Hjb.
  apply np_index_nat_int in Hja, Hjb.
  destruct Hja as (va & -> & Hva). destruct Hjb as (vb & -> & Hvb).
  exists va, vb.
  split; [eapply nth_error_In; eauto|].
  split; [eapply nth_error_In; eauto|].
  assert (Hi : _intify_slice self {| start := a; stop := b; step := PyInt c |}
               = Ok {| start := PyInt va; stop := PyInt vb; step := PyInt c |}).
  { rewrite Hint, Hra, Hrb. reflexivity. }
  split; [exact Hi|].
  unfold __getitem__. rewrite Hi.
  cbn [bind getslice ndarray_Array]. unfold np_slice.
  cbn [step start stop as_index bind].
  rewrite (proj2 (Z.eqb_neq c 0) Hc). reflexivity.
Qed.

Lemma getitem_slice_on_int_axis_witness :
  (axis downwards = IntArr [2; 1; 0] /\
   [2; 1; 0] <> [] /\
   1 <> 0 /\
   convertible (axis_unit downwards) (PyFloat (float 0)) = true /\
   convertible (axis_unit downwards)
     (PyQuantity (u.mul (Q2Qc (2 # 1000)) kilometre)) = true /\
   is_int (PyFloat (float 0))
   && is_int (PyQuantity (u.mul (Q2Qc (2 # 1000)) kilometre)) = false) /\
  exists va vb,
    In va [2; 1; 0] /\ In vb [2; 1; 0] /\
    _intify_slice downwards
      {| start := PyFloat (float 0);
         stop := PyQuantity (u.mul (Q2Qc (2 # 1000)) kilometre);
         step := PyInt 1 |}
    = Ok {| start := PyInt va; stop := PyInt vb; step := PyInt 1 |} /\
    __getitem__ downwards
      (Slice {| start := PyFloat (float 0);
                stop := PyQuantity (u.mul (Q2Qc (2 # 1000)) kilometre);
                step := PyInt 1 |})
    = Ok (Spec {| data := slice_of (data downwards) (Some va) (Some vb) 1;
                  axis := slice_of (axis downwards) (Some va) (Some vb) 1;
                  axis_unit := axis_unit downwards |}).
Proof.
  assert (H1 : axis downwards = IntArr [2; 1; 0]) by reflexivity.
  assert (H2 : [2; 1; 0] <> []) by discriminate.
  assert (H3 : 1 <> 0) by lia.
  assert (H4 : convertible (axis_unit downwards) (PyFloat (float 0)) = true)
    by reflexivity.
  assert (H5 : convertible (axis_unit downwards)
                 (PyQuantity (u.mul (Q2Qc (2 # 1000)) kilometre)) = true)
    by reflexivity.
  assert (H6 : is_int (PyFloat (float 0))
               && is_int (PyQuantity (u.mul (Q2Qc (2 # 1000)) kilometre))
               = false) by reflexivity.
  split; [repeat split; assumption|].
  apply (getitem_slice_on_int_axis _ _ _ _ _ H1 H2 H3 H4 H5 H6).
Defined.

(** X8: a slice with a float or a Quantity for one bound and no other bound
    ([S[x:]], [S[:x]], with or without a step) never gives a Spectrum: once
    a bound has brought a unit, the absent bound is sent through
    [_qty_to_pixel] as well, which cannot take it. *)
Theorem getitem_open_slice_with_value {A : Type} `{Array A}
        (self : Spectrum A) (o c : pyobj) :
  is_int o = false -> o <> PyNone ->
  (forall v, __getitem__ self
               (Slice {| start := PyNone; stop := o; step := c |}) <> Ok v) /\
  (forall v, __getitem__ self
               (Slice {| start := o; stop := PyNone; step := c |}) <> Ok v).
Proof.
  intros Hint Hnone.
  split; intros v; unfold __getitem__, _intify_slice; cbn [start stop step];
    destruct (is_int c); cbn [negb bind]; try discriminate;
    destruct o as [| z | x | q]; try discriminate Hint; try congruence;
    cbn [times bind]; try discriminate;
    match goal with
    | |- context [_qty_to_pixel self ?q] =>
        destruct (_qty_to_pixel self q); cbn [bind]; discriminate
    end.
Qed.

Lemma getitem_open_slice_with_value_witness :
  (is_int (PyFloat (float 2)) = false /\ PyFloat (float 2) <> PyNone) /\
  forall v,
    __getitem__ (scenario metre)
      (Slice {| start := PyFloat (float 2); stop := PyNone; step := PyInt 1 |})
    <> Ok v.
Proof.
  assert (H1 : is_int (PyFloat (float 2)) = false) by reflexivity.
  assert (H2 : PyFloat (float 2) <> PyNone) by discriminate.
  split; [auto|].
  apply (proj2 (getitem_open_slice_with_value (scenario metre)
                  (PyFloat (float 2)) (PyInt 1) H1 H2)).
Defined.

(** ** The elements of a slice *)

Lemma py_index_nonneg {A : Type} (l : list A) (i : Z) :
  0 <= i ->
  py_index l i = match znth l i with
                 | Some x => Ok x
                 | None => Raise IndexError
                 end.
Proof.
  intros Hi. unfold py_index. rewrite (proj2 (Z.ltb_ge i 0)) by lia.
  reflexivity.
Qed.

Lemma py_slice_elements {A : Type} (l : list A) (lo hi : option Z) (c : Z) :
  c <> 0 ->
  let n := Z.of_nat (length l) in
  let L := slice_start n lo c in
  let len := slice_length L (slice_stop n hi c) c in
  Z.of_nat (length (py_slice l lo hi c)) = len /\
  forall k, 0 <= k < len ->
            0 <= L + k * c < n /\
            py_index (py_slice l lo hi c) k = py_index l (L + k * c).
Proof.
  intros Hc n L len.
  pose proof (slice_length_nonneg L (slice_stop n hi c) c) as Hlen.
  fold len in Hlen.
  assert (Hpos : forall j, (j < Z.to_nat len)%nat ->
                           0 <= L + Z.of_nat j * c < n).
  { intros j Hj. apply (slice_positions n lo hi c (Z.of_nat j)); [lia | exact Hc|].
    fold L len. lia. }
  unfold py_slice. fold n L len.
  split.
  - rewrite strided_length by exact Hpos. lia.
  - intros k Hk.
    assert (Hk' : 0 <= L + k * c < n).
    { replace k with (Z.of_nat (Z.to_nat k)) by lia. apply Hpos. lia. }
    split; [exact Hk'|].
    rewrite !py_index_nonneg by lia.
    rewrite strided_znth by (try exact Hpos; lia).
    reflexivity.
Qed.

Lemma slice_of_elements (a : ndarray) (lo hi : option Z) (c : Z) :
  c <> 0 ->
  let n := size a in
  let L := slice_start n lo c in
  let len := slice_length L (slice_stop n hi c) c in
  size (slice_of a lo hi c) = len /\
  forall k, 0 <= k < len ->
            0 <= L + k * c < n /\
            np_index (slice_of a lo hi c) k = np_index a (L + k * c).
Proof.
  intros Hc. destruct a as [l | l]; simpl;
    destruct (py_slice_elements l lo hi c Hc) as [Hlen Hel];
    (split; [exact Hlen|]); intros k Hk;
    destruct (Hel k Hk) as [Hp ->]; auto.
Qed.

Lemma np_slice_Ok (a a' : ndarray) (s : slice) :
  np_slice a s = Ok a' ->
  exists lo hi c,
    c <> 0 /\ forall x, np_slice x s = Ok (slice_of x lo hi c).
Proof.
  unfold np_slice.
  destruct (as_index (step s)) as [c|]; cbn [bind]; [|discriminate].
  set (c' := match c with Some x => x | None => 1 end).
  destruct (Z.eqb_spec c' 0) as [|Hc]; [discriminate|].
  destruct (as_index (start s)) as [lo|]; cbn [bind]; [|discriminate].
  destruct (as_index (stop s)) as [hi|]; cbn [bind]; [|discriminate].
  intros _. exists lo, hi, c'. split; [exact Hc|].
  intros x. destruct (Z.eqb_spec c' 0); [contradiction | reflexivity].
Qed.

(** X9: a slice keeps the samples with their axis values.  If the data and
    the axis of [S] have the same length, so have those of the Spectrum a
    slice of [S] gives, it is no longer than [S], and each of its samples and
    the axis value at the same position are a sample of [S] and the axis
    value of that sample. *)
Theorem getitem_slice_aligned (self T : Spectrum ndarray) (s : slice) :
  size (data self) = size (axis self) ->
  __getitem__ self (Slice s) = Ok (Spec T) ->
  size (data T) = size (axis T) /\
  axis_unit T = axis_unit self /\
  forall k, 0 <= k < size (data T) ->
    exists p,
      0 <= p < size (data self) /\
      np_index (data T) k = np_index (data self) p /\
      np_index (axis T) k = np_index (axis self) p.
Proof.
  intros Hsize. unfold __getitem__.
  destruct (_intify_slice self s) as [intslice|]; cbn [bind]; [|discriminate].
  cbn [getslice ndarray_Array].
  destruct (np_slice (data self) intslice) as [d|] eqn:Hd; cbn [bind];
    [|discriminate].
  destruct (np_slice_Ok _ _ _ Hd) as (lo & hi & c & Hc & Hall).
  rewrite Hall in Hd. injection Hd as <-.
  rewrite Hall. cbn [bind]. intros [= <-]. cbn [data axis axis_unit].
  destruct (slice_of_elements (data self) lo hi c Hc) as [Hld Hed].
  destruct (slice_of_elements (axis self) lo hi c Hc) as [Hla Hea].
  rewrite <- Hsize in Hla, Hea.
  split; [congruence|]. split; [reflexivity|].
  intros k Hk. rewrite Hld in Hk.
  destruct (Hed k Hk) as [Hp Hdk]. destruct (Hea k Hk) as [_ Hak].
  eexists. split; [exact Hp|]. split; assumption.
Qed.

Lemma getitem_slice_aligned_witness :
  (size (data (scenario metre)) = size (axis (scenario metre)) /\
   __getitem__ (scenario metre)
     (Slice {| start := PyQuantity (u.mul (float 2) metre);
               stop := PyInt 5; step := PyInt 1 |})
   = Ok (Spec {| data := IntArr [4; 9; 4]; axis := IntArr [2; 3; 4];
                 axis_unit := metre |})) /\
  size (IntArr [4; 9; 4]) = size (IntArr [2; 3; 4]).
Proof.
  assert (H1 : size (data (scenario metre)) = size (axis (scenario metre)))
    by reflexivity.
  assert (H2 : __getitem__ (scenario metre)
                 (Slice {| start := PyQuantity (u.mul (float 2) metre);
                           stop := PyInt 5; step := PyInt 1 |})
               = Ok (Spec {| data := IntArr [4; 9; 4]; axis := IntArr [2; 3; 4];
                             axis_unit := metre |})) by reflexivity.
  split; [auto|].
  apply (getitem_slice_aligned _ _ _ H1 H2).
Defined.

Lemma getitem_ints (self : Spectrum ndarray) (a b c : Z) :
  c <> 0 ->
  __getitem__ self
    (Slice {| start := PyInt a; stop := PyInt b; step := PyInt c |})
  = Ok (Spec {| data := slice_of (data self) (Some a) (Some b) c;
                axis := slice_of (axis self) (Some a) (Some b) c;
                axis_unit := axis_unit self |}).
Proof.
  intros Hc. unfold __getitem__, _intify_slice.
  cbn [start stop step is_int negb bind getslice ndarray_Array].
  unfold np_slice. cbn [start stop step as_index bind].
  rewrite (proj2 (Z.eqb_neq c 0) Hc). reflexivity.
Qed.

(** X10: indexing a slice.  For integers [a], [b], [c] with [0 <= a < N],
    the [k]-th sample of [S[a:b:c]] is the sample [a + k*c] of [S]. *)
Theorem getitem_slice_then_index (self T : Spectrum ndarray) (a b c k : Z) :
  0 <= a < size (data self) ->
  __getitem__ self
    (Slice {| start := PyInt a; stop := PyInt b; step := PyInt c |})
  = Ok (Spec T) ->
  0 <= k < size (data T) ->
  __getitem__ T (Obj (PyInt k)) = __getitem__ self (Obj (PyInt (a + k * c))).
Proof.
  intros Ha HT Hk.
  destruct (Z.eq_dec c 0) as [-> | Hc].
  { unfold __getitem__, _intify_slice in HT.
    cbn [start stop step is_int negb bind getslice ndarray_Array] in HT.
    unfold np_slice in HT. simpl in HT. discriminate HT. }
  rewrite (getitem_ints self a b c Hc) in HT.
  injection HT as <-. cbn [data] in *.
  destruct (slice_of_elements (data self) (Some a) (Some b) c Hc) as [Hl He].
  rewrite Hl in Hk. destruct (He k Hk) as [_ Hi].
  unfold __getitem__. cbn [contents ndarray_Array data].
  rewrite Hi. cbn [slice_start]. unfold adjust.
  rewrite (proj2 (Z.ltb_ge a 0)) by lia.
  rewrite (proj2 (Z.leb_gt (size (data self)) a)) by lia.
  reflexivity.
Qed.

Lemma getitem_slice_then_index_witness :
  (0 <= 1 < size (data (scenario metre)) /\
   __getitem__ (scenario metre)
     (Slice {| start := PyInt 1; stop := PyInt 6; step := PyInt 2 |})
   = Ok (Spec {| data := IntArr [1; 9; 1]; axis := IntArr [1; 3; 5];
                 axis_unit := metre |}) /\
   0 <= 1 < size (IntArr [1; 9; 1])) /\
  __getitem__ {| data := IntArr [1; 9; 1]; axis := IntArr [1; 3; 5];
                 axis_unit := metre |} (Obj (PyInt 1))
  = __getitem__ (scenario metre) (Obj (PyInt (1 + 1 * 2))).
Proof.
  assert (H1 : 0 <= 1 < size (data (scenario metre))) by (simpl; lia).
  assert (H2 : __getitem__ (scenario metre)
                 (Slice {| start := PyInt 1; stop := PyInt 6; step := PyInt 2 |})
               = Ok (Spec {| data := IntArr [1; 9; 1]; axis := IntArr [1; 3; 5];
                             axis_unit := metre |})) by reflexivity.
  assert (H3 : 0 <= 1 < size (IntArr [1; 9; 1])) by (simpl; lia).
  split; [auto|].
  apply (getitem_slice_then_index (scenario metre) _ 1 6 2 1 H1 H2 H3).
Defined.

(** ** The line guess: when it returns, and what its amplitude is *)

Lemma argmax_first_best_int (l : list Z) (k : nat) :
  argmax (IntArr l) = Ok k -> first_best Z.gtb l k.
Proof.
  apply argfirst_first_best.
  - apply Zgtb_irrefl.
  - apply Zgtb_asym.
  - apply Zgtb_trans.
Qed.

Lemma argmax_first_best_float (l : list Qc) (k : nat) :
  argmax (FloatArr l) = Ok k -> first_best (fun x y => Qcltb y x) l k.
Proof.
  apply argfirst_first_best.
  - intros x. apply Qcltb_irrefl.
  - intros x y. apply Qcltb_asym.
  - intros x y z. rewrite !Qcltb_lt, Qcltb_ge.
    intros H1 H2. apply Qcle_lt_trans with y; assumption.
Qed.

Lemma argmax_total (a : ndarray) :
  0 < size a -> exists k, argmax a = Ok k.
Proof.
  destruct a as [[|x l] | [|x l]]; simpl; intros Hs; try lia; eauto.
Qed.

Lemma argmax_empty (a : ndarray) : size a = 0 -> argmax a = Raise ValueError.
Proof.
  destruct a as [[|x l] | [|x l]]; simpl; intros Hs; try lia; reflexivity.
Qed.

(** X11: the line guess of a Spectrum without samples raises ValueError:
    there is no maximum. *)
Theorem make_line_guess_empty (py : python) (self : Spectrum ndarray) :
  size (data self) = 0 -> _make_line_guess py self = Raise ValueError.
Proof.
  intros Hs. unfold _make_line_guess, np_max. cbn [contents ndarray_Array].
  rewrite (argmax_empty _ Hs). reflexivity.
Qed.

Lemma make_line_guess_empty_witness :
  size (data {| data := FloatArr []; axis := FloatArr [];
                axis_unit := metre |}) = 0 /\
  _make_line_guess Python3
    {| data := FloatArr []; axis := FloatArr []; axis_unit := metre |}
  = Raise ValueError.
Proof.
  assert (H : size (data {| data := FloatArr []; axis := FloatArr [];
                            axis_unit := metre |}) = 0) by reflexivity.
  split; [exact H | apply (make_line_guess_empty Python3 _ H)].
Defined.

(** X12: on a Spectrum with at least one sample, and an axis as long as the
    data, the line guess returns: none of its lookups is out of range,
    wherever the maximum is. *)
Theorem make_line_guess_returns (py : python) (self : Spectrum ndarray) :
  0 < size (data self) ->
  size (data self) = size (axis self) ->
  exists amp mean stddev, _make_line_guess py self = Ok (amp, mean, stddev).
Proof.
  intros Hpos Hlen.
  destruct (argmax_total _ Hpos) as [argamp Hmax].
  pose proof (argmax_lt _ _ Hmax) as Hlt.
  destruct (np_index_total (data self) argamp Hlt) as [amp Hamp].
  destruct (np_index_total (axis self) argamp) as [mean Hmean]; [lia|].
  unfold _make_line_guess, np_max. cbn [contents ndarray_Array].
  rewrite Hmax. cbn [bind]. rewrite Hamp. cbn [bind].
  rewrite Hmean. cbn [bind].
  set (diffs := np_abs (np_sub (data self) (py_div py amp 2))).
  assert (Hdiffs : size diffs = size (data self)).
  { unfold diffs. rewrite size_np_abs, size_np_sub. reflexivity. }
  assert (Hfrom : 0 < size (from diffs argamp))
    by (rewrite size_from; lia).
  rewrite (proj2 (Z.ltb_lt _ _) Hfrom).
  destruct (argmin_total _ Hfrom) as (j & Hj & Hjlt).
  rewrite Hj. cbn [bind].
  rewrite size_from in Hjlt by lia.
  destruct (np_index_total (axis self) j) as [r Hr]; [lia|].
  destruct (0 <? size (upto diffs argamp)); cbn [bind].
  - rewrite Hr. cbn [bind]. eauto.
  - rewrite Hr. cbn [bind].
    destruct (np_index_total (axis self) 0) as [r0 Hr0]; [simpl; lia|].
    simpl Z.of_nat in Hr0. rewrite Hr0. cbn [bind]. eauto.
Qed.

Lemma make_line_guess_returns_witness :
  (0 < size (data downwards) /\ size (data downwards) = size (axis downwards))
  /\ exists amp mean stddev,
       _make_line_guess Python2 downwards = Ok (amp, mean, stddev).
Proof.
  assert (H1 : 0 < size (data downwards)) by (simpl; lia).
  assert (H2 : size (data downwards) = size (axis downwards)) by reflexivity.
  split; [auto | apply (make_line_guess_returns Python2 downwards H1 H2)].
Defined.

(** X13: the amplitude of the line guess is the greatest sample and its
    mean the axis value at the first position of that sample: no sample is
    greater, and the samples before it are smaller. *)
Theorem make_line_guess_amplitude (py : python) (self : Spectrum ndarray)
        (amp mean stddev : num) :
  _make_line_guess py self = Ok (amp, mean, stddev) ->
  exists argamp,
    np_index (data self) (Z.of_nat argamp) = Ok amp /\
    np_index (axis self) (Z.of_nat argamp) = Ok mean /\
    forall i x,
      np_index (data self) (Z.of_nat i) = Ok x ->
      (to_float x <= to_float amp)%Qc /\
      ((i < argamp)%nat -> (to_float x < to_float amp)%Qc).
Proof.
  unfold _make_line_guess, np_max. cbn [contents ndarray_Array].
  destruct (argmax (data self)) as [argamp|] eqn:Hmax; cbn [bind];
    [|discriminate].
  destruct (np_index (data self) (Z.of_nat argamp)) as [amp'|] eqn:Hamp;
    cbn [bind]; [|discriminate].
  destruct (np_index (axis self) (Z.of_nat argamp)) as [mean'|] eqn:Hmean;
    cbn [bind]; [|discriminate].
  intros Hres.
  assert (amp' = amp /\ mean' = mean) as [-> ->].
  { repeat match type of Hres with
           | context [bind ?m _] => destruct m; cbn [bind] in Hres;
                                    try discriminate Hres
           end.
    injection Hres as -> -> _. auto. }
  exists argamp. split; [exact Hamp|]. split; [exact Hmean|].
  intros i x Hx.
  destruct (data self) as [l | l].
  - apply argmax_first_best_int in Hmax.
    destruct Hmax as (y & Hy & Hmin & Hfirst).
    apply np_index_nat_int in Hamp, Hx.
    destruct Hamp as (y' & -> & Hy'). destruct Hx as (z & -> & Hz).
    assert (y' = y) by congruence. subst y'. simpl. split.
    + apply (proj1 (float_le _ _)).
      pose proof (Hmin z (nth_error_In _ _ Hz)). lia.
    + intros Hi. apply (proj1 (float_lt _ _)).
      pose proof (Hfirst i z Hi Hz). lia.
  - apply argmax_first_best_float in Hmax.
    destruct Hmax as (y & Hy & Hmin & Hfirst).
    apply np_index_nat_float in Hamp, Hx.
    destruct Hamp as (y' & -> & Hy'). destruct Hx as (z & -> & Hz).
    assert (y' = y) by congruence. subst y'. simpl. split.
    + apply Qcltb_ge. apply (Hmin z (nth_error_In _ _ Hz)).
    + intros Hi. apply Qcltb_lt. apply (Hfirst i z Hi Hz).
Qed.

Lemma make_line_guess_amplitude_witness :
  _make_line_guess Python3 (scenario metre) = Ok (I 9, I 3, I 0) /\
  exists argamp,
    np_index (data (scenario metre)) (Z.of_nat argamp) = Ok (I 9) /\
    np_index (axis (scenario metre)) (Z.of_nat argamp) = Ok (I 3) /\
    forall i x,
      np_index (data (scenario metre)) (Z.of_nat i) = Ok x ->
      (to_float x <= to_float (I 9))%Qc /\
      ((i < argamp)%nat -> (to_float x < to_float (I 9))%Qc).
Proof.
  assert (H : _make_line_guess Python3 (scenario metre) = Ok (I 9, I 3, I 0))
    by reflexivity.
  split; [exact H|].
  apply (make_line_guess_amplitude Python3 (scenario metre) _ _ _ H).
Defined.

(** ** Adding in place *)

Lemma add_at_length (l : list Qc) (i : nat) (x : Qc) :
  length (add_at l i x) = length l.
Proof.
  revert i. induction l as [|y t IH]; intros [|i]; simpl; auto.
Qed.

Lemma add_at_nth (l : list Qc) (i j : nat) (x : Qc) :
  nth_error (add_at l i x) j =
  if Nat.eqb j i then option_map (fun y => y + x)%Qc (nth_error l j)
  else nth_error l j.
Proof.
  revert i j. induction l as [|y t IH]; intros i j.
  - destruct i, j; simpl; try reflexivity; destruct (Nat.eqb j i); reflexivity.
  - destruct i as [|i], j as [|j]; simpl; try reflexivity. apply IH.
Qed.

Lemma increased_S (v : view) (x : Qc) (l : list Qc) (n : nat) :
  0 <= position v n ->
  increased v x l (S n)
  = add_at (increased v x l n) (Z.to_nat (position v n)) x.
Proof.
  intros Hp. unfold increased. rewrite seq_S, fold_left_app. simpl.
  fold (position v n). rewrite (proj2 (Z.ltb_ge _ 0)) by exact Hp.
  reflexivity.
Qed.

Lemma increased_length (v : view) (x : Qc) (l : list Qc) (n : nat) :
  (forall k, (k < n)%nat -> 0 <= position v k) ->
  length (increased v x l n) = length l.
Proof.
  induction n as [|n IH]; intros Hp; [reflexivity|].
  rewrite increased_S by (apply Hp; lia).
  rewrite add_at_length. apply IH. intros k Hk. apply Hp. lia.
Qed.

Lemma position_inj (v : view) (j k : nat) :
  stride v <> 0 -> position v j = position v k -> j = k.
Proof.
  unfold position. intros Hs E. nia.
Qed.

(** An element of the buffer is increased once if the view selects it, and
    is left alone if not. *)
Lemma increased_znth (v : view) (x : Qc) (l : list Qc) (n : nat) (p : Z) :
  stride v <> 0 ->
  (forall k, (k < n)%nat -> 0 <= position v k) ->
  0 <= p ->
  znth (increased v x l n) p =
  if existsb (fun k => position v k =? p) (seq 0 n)
  then option_map (fun y => y + x)%Qc (znth l p)
  else znth l p.
Proof.
  intros Hs. induction n as [|n IH]; intros Hpos Hp; [reflexivity|].
  rewrite increased_S by (apply Hpos; lia).
  rewrite seq_S, existsb_app. simpl. rewrite orb_false_r.
  specialize (IH (fun k Hk => Hpos k (Nat.lt_lt_succ_r _ _ Hk)) Hp).
  assert (Hn : 0 <= position v n) by (apply Hpos; lia).
  unfold znth in *. rewrite (proj2 (Z.ltb_ge p 0)) in * by exact Hp.
  rewrite add_at_nth.
  destruct (Z.eqb_spec (position v n) p) as [E | E].
  - subst p. rewrite Nat.eqb_refl, orb_true_r.
    assert (Hno : existsb (fun k => position v k =? position v n) (seq 0 n)
                  = false).
    { destruct (existsb _ _) eqn:Ex; [|reflexivity].
      apply existsb_exists in Ex. destruct Ex as (k & Hk & Hkp).
      apply in_seq in Hk. apply Z.eqb_eq in Hkp.
      apply (position_inj v k n Hs) in Hkp. lia. }
    rewrite Hno in IH. rewrite IH. reflexivity.
  - rewrite (proj2 (Nat.eqb_neq _ _)) by lia.
    rewrite orb_false_r. exact IH.
Qed.

Lemma strided_pointwise {A : Type} (f : A -> A) (l l' : list A) (lo c : Z)
      (len : nat) :
  (forall k, (k < len)%nat ->
             znth l' (lo + Z.of_nat k * c)
             = option_map f (znth l (lo + Z.of_nat k * c))) ->
  strided l' lo c len = map f (strided l lo c len).
Proof.
  induction len as [|len IH]; intros Hp; [reflexivity|].
  rewrite !strided_S, map_app, IH by (intros k Hk; apply Hp; lia).
  rewrite (Hp len) by lia.
  destruct (znth l (lo + Z.of_nat len * c)); reflexivity.
Qed.

Lemma strided_same {A : Type} (l l' : list A) (lo c : Z) (len : nat) :
  (forall k, (k < len)%nat ->
             znth l' (lo + Z.of_nat k * c) = znth l (lo + Z.of_nat k * c)) ->
  strided l' lo c len = strided l lo c len.
Proof.
  induction len as [|len IH]; intros Hp; [reflexivity|].
  rewrite !strided_S, IH by (intros k Hk; apply Hp; lia).
  rewrite (Hp len) by lia. reflexivity.
Qed.

Lemma iadd_float (v : view) (x : Qc) (st : store) (l : list Qc) :
  buffer st (base v) = FloatArr l ->
  iadd v x st
  = Ok (write (base v) (FloatArr (increased v x l (count v))) st).
Proof.
  intros Hb. unfold iadd. rewrite Hb. reflexivity.
Qed.

Lemma in_bounds_positions (st : store) (v : view) :
  in_bounds st v -> forall k, (k < count v)%nat -> 0 <= position v k.
Proof.
  intros Hin k Hk. apply Hin in Hk. unfold position. lia.
Qed.

Lemma within_refl (v : view) : within v v.
Proof.
  split; [reflexivity|]. intros k Hk. exists k. auto.
Qed.

Lemma view_slice_within (v w : view) (s : slice) :
  view_slice v s = Ok w -> within v w.
Proof.
  unfold view_slice.
  destruct (as_index (step s)) as [c|]; simpl; [|discriminate].
  set (c' := match c with Some x => x | None => 1 end).
  destruct (Z.eqb_spec c' 0) as [|Hc]; [discriminate|].
  destruct (as_index (start s)) as [a|]; simpl; [|discriminate].
  destruct (as_index (stop s)) as [b|]; simpl; [|discriminate].
  intros [= <-]. split; [reflexivity|].
  cbn [count]. intros k Hk.
  set (n := Z.of_nat (count v)) in *.
  set (lo := slice_start n a c') in *.
  set (hi := slice_stop n b c') in *.
  assert (Hpos : 0 <= lo + Z.of_nat k * c' < n).
  { apply (slice_positions n a b c' (Z.of_nat k)); [lia | exact Hc|].
    fold lo hi. pose proof (slice_length_nonneg lo hi c'). lia. }
  exists (Z.to_nat (lo + Z.of_nat k * c')). split; [lia|].
  unfold position. cbn [offset stride]. rewrite Z2Nat.id by lia. ring.
Qed.

(** After [v += x], a view on elements of [v] holds its values increased by
    [x]; a view on another buffer holds what it held. *)
Lemma read_iadd_within (v w : view) (x : Qc) (st : store) (l r : list Qc) :
  stride v <> 0 -> in_bounds st v ->
  buffer st (base v) = FloatArr l ->
  within v w ->
  read st w = FloatArr r ->
  read (write (base v) (FloatArr (increased v x l (count v))) st) w
  = FloatArr (map (fun y => y + x)%Qc r).
Proof.
  intros Hs Hin Hb [Hbase Hw] Hr.
  unfold read in *. cbn [write buffer]. rewrite Hbase in *.
  rewrite Nat.eqb_refl. rewrite Hb in Hr. injection Hr as <-.
  f_equal. apply strided_pointwise. intros k Hk.
  destruct (Hw k Hk) as (j & Hj & Hp). fold (position w k). rewrite Hp.
  rewrite increased_znth;
    [| exact Hs | apply (in_bounds_positions st), Hin
     | apply (in_bounds_positions st v Hin), Hj].
  replace (existsb _ _) with true; [reflexivity|].
  symmetry. apply existsb_exists. exists j. split.
  - apply in_seq. lia.
  - apply Z.eqb_refl.
Qed.

Lemma read_write_other (b : nat) (a : ndarray) (st : store) (w : view) :
  base w <> b -> read (write b a st) w = read st w.
Proof.
  intros Hb. unfold read. cbn [write buffer].
  rewrite (proj2 (Nat.eqb_neq _ _) Hb). reflexivity.
Qed.

Lemma in_bounds_increased (v w : view) (x : Qc) (st : store) (l : list Qc) :
  in_bounds st v ->
  buffer st (base v) = FloatArr l ->
  in_bounds st w ->
  in_bounds (write (base v) (FloatArr (increased v x l (count v))) st) w.
Proof.
  intros Hv Hb Hw k Hk. specialize (Hw k Hk). cbn [write buffer].
  destruct (Nat.eqb_spec (base w) (base v)) as [E | E]; [|exact Hw].
  rewrite E, Hb in Hw. simpl in *.
  rewrite increased_length by (apply (in_bounds_positions st), Hv).
  exact Hw.
Qed.

Lemma shift_axis_iadd (self : Spectrum view) (o : pyobj) (st : store) :
  convertible (axis_unit self) o = true ->
  shift_axis self o st = iadd (axis self) (magnitude (axis_unit self) o) st.
Proof.
  unfold shift_axis. destruct o as [| z | x | q]; simpl; intros Hc;
    try discriminate; cbn [bind].
  - rewrite to_same_unit. reflexivity.
  - rewrite to_same_unit. reflexivity.
  - unfold u.to. rewrite Hc. reflexivity.
Qed.

Lemma read_float_buffer (st : store) (v : view) (r : list Qc) :
  read st v = FloatArr r -> exists l, buffer st (base v) = FloatArr l.
Proof.
  unfold read. destruct (buffer st (base v)) as [l | l]; [discriminate|].
  eauto.
Qed.

(** What [shift_axis] does to the store, for a float axis. *)
Lemma shift_axis_effect (self : Spectrum view) (o : pyobj) (st : store)
      (r : list Qc) :
  stride (axis self) <> 0 ->
  in_bounds st (axis self) ->
  read st (axis self) = FloatArr r ->
  convertible (axis_unit self) o = true ->
  exists st',
    shift_axis self o st = Ok st' /\
    next st' = next st /\
    (forall w rw, within (axis self) w -> read st w = FloatArr rw ->
       read st' w
       = FloatArr (map (fun y => y + magnitude (axis_unit self) o)%Qc rw)) /\
    (forall w, base w <> base (axis self) -> read st' w = read st w) /\
    (forall w, in_bounds st w -> in_bounds st' w).
Proof.
  intros Hs Hin Hr Hc.
  destruct (read_float_buffer _ _ _ Hr) as [l Hb].
  rewrite (shift_axis_iadd self o st Hc), (iadd_float _ _ _ _ Hb).
  eexists. split; [reflexivity|]. split; [reflexivity|].
  split; [|split].
  - intros w rw Hw Hrw. apply (read_iadd_within _ _ _ _ l); assumption.
  - intros w Hw. apply read_write_other. exact Hw.
  - intros w Hw. apply in_bounds_increased; assumption.
Qed.

(** ** shift_axis *)

(** X14: [shift_axis] adds the offset to every value of a float axis: a
    number as it is, a Quantity of the physical type of the axis converted
    to the axis unit.  It leaves the data alone when the data is kept in
    another buffer. *)
Theorem shift_axis_adds (self : Spectrum view) (o : pyobj) (st : store)
        (r : list Qc) :
  stride (axis self) <> 0 ->
  in_bounds st (axis self) ->
  read st (axis self) = FloatArr r ->
  convertible (axis_unit self) o = true ->
  exists st',
    shift_axis self o st = Ok st' /\
    read st' (axis self)
    = FloatArr (map (fun y => y + magnitude (axis_unit self) o)%Qc r) /\
    (base (data self) <> base (axis self) ->
     read st' (data self) = read st (data self)).
Proof.
  intros Hs Hin Hr Hc.
  destruct (shift_axis_effect self o st r Hs Hin Hr Hc)
    as (st' & Hshift & _ & Hwithin & Hother & _).
  exists st'. split; [exact Hshift|]. split.
  - apply Hwithin; [apply within_refl | exact Hr].
  - apply Hother.
Qed.

Lemma shift_axis_adds_witness :
  (stride (axis parent) <> 0 /\
   in_bounds two_buffers (axis parent) /\
   read two_buffers (axis parent) = FloatArr [float 0; float 1; float 2] /\
   convertible (axis_unit parent)
     (PyQuantity (u.mul (float 1) kilometre)) = true) /\
  exists st',
    shift_axis parent (PyQuantity (u.mul (float 1) kilometre)) two_buffers
    = Ok st' /\
    read st' (axis parent)
    = FloatArr
        (map (fun y => y + magnitude (axis_unit parent)
                            (PyQuantity (u.mul (float 1) kilometre)))%Qc
             [float 0; float 1; float 2]) /\
    (base (data parent) <> base (axis parent) ->
     read st' (data parent) = read two_buffers (data parent)).
Proof.
  assert (H1 : stride (axis parent) <> 0) by (simpl; lia).
  assert (H2 : in_bounds two_buffers (axis parent)).
  { intros k Hk. simpl in *. lia. }
  assert (H3 : read two_buffers (axis parent)
               = FloatArr [float 0; float 1; float 2]) by reflexivity.
  assert (H4 : convertible (axis_unit parent)
                 (PyQuantity (u.mul (float 1) kilometre)) = true)
    by reflexivity.
  split; [auto|].
  apply (shift_axis_adds parent _ two_buffers _ H1 H2 H3 H4).
Defined.


Lemma map_add_zero (r : list Qc) : map (fun y => y + 0)%Qc r = r.
Proof.
  rewrite <- (map_id r) at 2. apply map_ext. intros y. ring.
Qed.



(** X16: [shift_axis(0)] leaves a float axis as it is. *)
Theorem shift_axis_zero (self : Spectrum view) (st : store) (r : list Qc) :
  stride (axis self) <> 0 ->
  in_bounds st (axis self) ->
  read st (axis self) = FloatArr r ->
  exists st',
    shift_axis self (PyInt 0) st = Ok st' /\
    read st' (axis self) = read st (axis self).
Proof.
  intros Hs Hin Hr.
  destruct (shift_axis_effect self (PyInt 0) st r Hs Hin Hr eq_refl)
    as (st' & Hshift & _ & Hwithin & _ & _).
  exists st'. split; [exact Hshift|].
  rewrite (Hwithin _ _ (within_refl _) Hr), Hr.
  cbn [magnitude]. change (float 0) with 0%Qc.
  rewrite map_add_zero. reflexivity.
Qed.

Lemma shift_axis_zero_witness :
  (stride (axis parent) <> 0 /\
   in_bounds two_buffers (axis parent) /\
   read two_buffers (axis parent) = FloatArr [float 0; float 1; float 2]) /\
  exists st',
    shift_axis parent (PyInt 0) two_buffers = Ok st' /\
    read st' (axis parent) = read two_buffers (axis parent).
Proof.
  assert (H1 : stride (axis parent) <> 0) by (simpl; lia).
  assert (H2 : in_bounds two_buffers (axis parent)).
  { intros k Hk. simpl in *. lia. }
  assert (H3 : read two_buffers (axis parent)
               = FloatArr [float 0; float 1; float 2]) by reflexivity.
  split; [auto|].
  apply (shift_axis_zero parent two_buffers _ H1 H2 H3).
Defined.

Lemma getitem_slice_within (st : store) (S T : Spectrum view) (s : slice) :
  @__getitem__ view (view_Array st) S (Slice s) = Ok (Spec T) ->
  within (data S) (data T) /\ within (axis S) (axis T).
Proof.
  unfold __getitem__.
  destruct (_intify_slice S s) as [intslice|]; simpl; [|discriminate].
  destruct (view_slice (data S) intslice) as [d|] eqn:Hd; simpl; [|discriminate].
  destruct (view_slice (axis S) intslice) as [x|] eqn:Hx; simpl; [|discriminate].
  intros [= <-]. simpl.
  split; eapply view_slice_within; eauto.
Qed.

(** X17: [shift_axis] is seen through every slice taken before: the axis of
    the Spectrum [S[s]] looks at elements of the axis of [S], and after
    [S.shift_axis(o)] each of its values is increased by the offset. *)
Theorem shift_axis_through_slices (S T : Spectrum view) (s : slice)
        (o : pyobj) (st : store) (r : list Qc) :
  stride (axis S) <> 0 ->
  in_bounds st (axis S) ->
  convertible (axis_unit S) o = true ->
  @__getitem__ view (view_Array st) S (Slice s) = Ok (Spec T) ->
  read st (axis T) = FloatArr r ->
  exists st',
    shift_axis S o st = Ok st' /\
    read st' (axis T)
    = FloatArr (map (fun y => y + magnitude (axis_unit S) o)%Qc r).
Proof.
  intros Hs Hin Hc HT Hr.
  destruct (getitem_slice_within _ _ _ _ HT) as [_ Hw].
  destruct (read_float_buffer _ _ _ Hr) as [l Hb].
  rewrite (proj1 Hw) in Hb.
  assert (HrS : read st (axis S)
                = FloatArr (strided l (offset (axis S)) (stride (axis S))
                                    (count (axis S)))).
  { unfold read. rewrite Hb. reflexivity. }
  destruct (shift_axis_effect S o st _ Hs Hin HrS Hc)
    as (st' & Hshift & _ & Hwithin & _ & _).
  exists st'. split; [exact Hshift|].
  apply Hwithin; assumption.
Qed.

Lemma shift_axis_through_slices_witness :
  (stride (axis parent) <> 0 /\
   in_bounds two_buffers (axis parent) /\
   convertible (axis_unit parent) (PyFloat (float 1)) = true /\
   @__getitem__ view (view_Array two_buffers) parent
     (Slice {| start := PyInt 0; stop := PyInt 2; step := PyInt 1 |})
   = Ok (Spec child) /\
   read two_buffers (axis child) = FloatArr [float 0; float 1]) /\
  exists st',
    shift_axis parent (PyFloat (float 1)) two_buffers = Ok st' /\
    read st' (axis child)
    = FloatArr (map (fun y => y + magnitude (axis_unit parent)
                                      (PyFloat (float 1)))%Qc
                    [float 0; float 1]).
Proof.
  assert (H1 : stride (axis parent) <> 0) by (simpl; lia).
  assert (H2 : in_bounds two_buffers (axis parent)).
  { intros k Hk. simpl in *. lia. }
  assert (H3 : convertible (axis_unit parent) (PyFloat (float 1)) = true)
    by reflexivity.
  assert (H4 : @__getitem__ view (view_Array two_buffers) parent
                 (Slice {| start := PyInt 0; stop := PyInt 2;
                           step := PyInt 1 |})
               = Ok (Spec child)) by reflexivity.
  assert (H5 : read two_buffers (axis child) = FloatArr [float 0; float 1])
    by reflexivity.
  split; [auto|].
  apply (shift_axis_through_slices parent child _ _ two_buffers _
           H1 H2 H3 H4 H5).
Defined.

(** X18: an offset that is a Quantity of another physical type than the
    axis raises UnitConversionError, whatever the axis holds; no store comes
    back: nothing has been written. *)
Theorem shift_axis_unit_mismatch (self : Spectrum view) (q : u.Quantity)
        (st : store) :
  convertible (axis_unit self) (PyQuantity q) = false ->
  shift_axis self (PyQuantity q) st = Raise UnitConversionError.
Proof.
  simpl. intros Hc. unfold shift_axis, u.to. cbn [bind].
  rewrite Hc. reflexivity.
Qed.

Lemma shift_axis_unit_mismatch_witness :
  convertible (axis_unit parent) (PyQuantity (u.mul (float 1) hertz)) = false
  /\ shift_axis parent (PyQuantity (u.mul (float 1) hertz)) two_buffers
     = Raise UnitConversionError.
Proof.
  assert (H : convertible (axis_unit parent)
                (PyQuantity (u.mul (float 1) hertz)) = false) by reflexivity.
  split; [exact H | apply (shift_axis_unit_mismatch parent _ two_buffers H)].
Defined.

(** ** map_to_axis *)

Lemma strided_whole {A : Type} (l : list A) : strided l 0 1 (length l) = l.
Proof.
  induction l as [|x l IH] using rev_ind; [reflexivity|].
  rewrite length_app. simpl length. rewrite Nat.add_1_r, strided_S.
  replace (0 + Z.of_nat (length l) * 1) with (Z.of_nat (length l)) by lia.
  unfold znth at 1. rewrite (proj2 (Z.ltb_ge _ 0)) by lia.
  rewrite Nat2Z.id, nth_error_app2, Nat.sub_diag by lia. simpl.
  f_equal. transitivity (strided l 0 1 (length l)); [|exact IH].
  apply strided_same.
  intros k Hk. unfold znth.
  destruct (0 + Z.of_nat k * 1 <? 0); [reflexivity|].
  apply nth_error_app1. lia.
Qed.

Lemma read_alloc_new (a : ndarray) (st : store) :
  read (snd (alloc a st)) (fst (alloc a st)) = a.
Proof.
  unfold read, alloc. cbn [fst snd base offset stride count buffer].
  rewrite Nat.eqb_refl.
  destruct a as [l | l]; simpl size; rewrite Nat2Z.id, strided_whole;
    reflexivity.
Qed.

Lemma size_to_floats (a : ndarray) : Z.of_nat (length (to_floats a)) = size a.
Proof. destruct a; simpl; rewrite ?length_map; reflexivity. Qed.

(** X19: after [map_to_axis(fun)] the axis holds, for each of its former
    values [t], the magnitude of [fun(t * axis_unit)]: the unit of the result
    of [fun] is dropped and the axis unit stays.  The axis keeps its length
    and the data is left as it was. *)
Theorem map_to_axis_values (self : Spectrum view)
        (f : u.Quantity -> u.Quantity) (st : store) :
  let self' := fst (map_to_axis self f st) in
  let st' := snd (map_to_axis self f st) in
  read st' (axis self')
  = FloatArr (map (fun t => u.value (f (u.mul t (axis_unit self))))
                  (to_floats (read st (axis self)))) /\
  size (read st' (axis self')) = size (read st (axis self)) /\
  axis_unit self' = axis_unit self /\
  data self' = data self /\
  ((base (data self) < next st)%nat ->
   read st' (data self') = read st (data self)).
Proof.
  unfold map_to_axis. rewrite !map_map.
  set (a := FloatArr _).
  pose proof (read_alloc_new a st) as Hnew.
  pose proof (read_alloc a st (data self)) as Hold.
  destruct (alloc a st) as [v st1]. cbn [fst snd axis data axis_unit] in *.
  rewrite Hnew. unfold a.
  split; [reflexivity|]. split.
  - simpl. rewrite length_map. apply size_to_floats.
  - auto.
Qed.

Lemma map_to_axis_values_witness :
  (base (data parent) < next two_buffers)%nat /\
  read (snd (map_to_axis parent (fun q => u.mul (u.value q) kilometre)
               two_buffers))
       (data (fst (map_to_axis parent (fun q => u.mul (u.value q) kilometre)
                     two_buffers)))
  = read two_buffers (data parent).
Proof.
  assert (H : (base (data parent) < next two_buffers)%nat) by (simpl; lia).
  split; [exact H|].
  apply (proj2 (proj2 (proj2 (proj2
           (map_to_axis_values parent
              (fun q => u.mul (u.value q) kilometre) two_buffers)))) H).
Defined.

(** X20: [map_to_axis] with a function that keeps the magnitude (the
    identity, for one) leaves the values of a float axis as they are. *)
Theorem map_to_axis_identity (self : Spectrum view)
        (f : u.Quantity -> u.Quantity) (st : store) (r : list Qc) :
  (forall q, u.value (f q) = u.value q) ->
  read st (axis self) = FloatArr r ->
  read (snd (map_to_axis self f st)) (axis (fst (map_to_axis self f st)))
  = read st (axis self).
Proof.
  intros Hf Hr. unfold map_to_axis. rewrite !map_map.
  set (a := FloatArr _).
  pose proof (read_alloc_new a st) as Hnew.
  destruct (alloc a st) as [v st1]. cbn [fst snd axis] in *.
  rewrite Hnew, Hr. unfold a. rewrite Hr. cbn [to_floats]. f_equal.
  rewrite <- (map_id r) at 2. apply map_ext. intros t.
  rewrite Hf. reflexivity.
Qed.

Lemma map_to_axis_identity_witness :
  ((forall q : u.Quantity, u.value ((fun q => q) q) = u.value q) /\
   read two_buffers (axis parent) = FloatArr [float 0; float 1; float 2]) /\
  read (snd (map_to_axis parent (fun q => q) two_buffers))
       (axis (fst (map_to_axis parent (fun q => q) two_buffers)))
  = read two_buffers (axis parent).
Proof.
  assert (H1 : forall q : u.Quantity, u.value ((fun q => q) q) = u.value q)
    by reflexivity.
  assert (H2 : read two_buffers (axis parent)
               = FloatArr [float 0; float 1; float 2]) by reflexivity.
  split; [auto|].
  apply (map_to_axis_identity parent (fun q => q) two_buffers _ H1 H2).
Defined.

Lemma shift_axis_writes (self : Spectrum view) (o : pyobj) (st st' : store) :
  shift_axis self o st = Ok st' ->
  exists a, st' = write (base (axis self)) a st.
Proof.
  unfold shift_axis.
  destruct (match o with
            | PyNone => Raise TypeError
            | PyInt z => Ok (u.mul (float z) (axis_unit self))
            | PyFloat x => Ok (u.mul x (axis_unit self))
            | PyQuantity q => Ok q
            end) as [q|]; cbn [bind]; [|discriminate].
  destruct (u.to q (axis_unit self)) as [q'|]; cbn [bind]; [|discriminate].
  unfold iadd. destruct (buffer st (base (axis self))); [discriminate|].
  intros [= <-]. eauto.
Qed.

(** X21: [map_to_axis] takes the axis of its receiver out of the buffer it
    shared: after [T = S[s]] and [S.map_to_axis(fun)], a [shift_axis] on [S]
    changes neither the axis nor the data of [T]. *)
Theorem map_to_axis_detaches (S T : Spectrum view) (s : slice)
        (f : u.Quantity -> u.Quantity) (o : pyobj) (st st2 : store) :
  allocated st S ->
  @__getitem__ view (view_Array st) S (Slice s) = Ok (Spec T) ->
  shift_axis (fst (map_to_axis S f st)) o (snd (map_to_axis S f st)) = Ok st2 ->
  read st2 (axis T) = read st (axis T) /\
  read st2 (data T) = read st (data T).
Proof.
  intros [Hd Ha] HT Hshift.
  apply getitem_slice_views in HT. destruct HT as (Ed & Ea & _).
  apply shift_axis_writes in Hshift. destruct Hshift as [a ->].
  assert (Hbase : base (axis (fst (map_to_axis S f st))) = next st).
  { unfold map_to_axis. destruct (alloc _ st) eqn:E.
    unfold alloc in E. injection E as <- <-. reflexivity. }
  rewrite Hbase.
  split; (rewrite read_write_other by lia); apply read_map_to_axis; lia.
Qed.

Lemma map_to_axis_detaches_witness :
  let s := {| start := PyInt 0; stop := PyInt 2; step := PyInt 1 |} in
  let f := fun q : u.Quantity => q in
  let st2 :=
    match shift_axis (fst (map_to_axis parent f two_buffers))
            (PyFloat (float 1)) (snd (map_to_axis parent f two_buffers)) with
    | Ok st2 => st2
    | Raise _ => two_buffers
    end in
  (allocated two_buffers parent /\
   @__getitem__ view (view_Array two_buffers) parent (Slice s)
   = Ok (Spec child) /\
   shift_axis (fst (map_to_axis parent f two_buffers)) (PyFloat (float 1))
     (snd (map_to_axis parent f two_buffers)) = Ok st2) /\
  read st2 (axis child) = read two_buffers (axis child) /\
  read st2 (data child) = read two_buffers (data child).
Proof.
  intros s f st2.
  assert (H1 : allocated two_buffers parent) by (split; simpl; lia).
  assert (H2 : @__getitem__ view (view_Array two_buffers) parent (Slice s)
               = Ok (Spec child)) by reflexivity.
  assert (H3 : shift_axis (fst (map_to_axis parent f two_buffers))
                 (PyFloat (float 1)) (snd (map_to_axis parent f two_buffers))
               = Ok st2) by reflexivity.
  split; [auto|].
  apply (map_to_axis_detaches parent child s f _ two_buffers st2 H1 H2 H3).
Defined.

(** ** Quantities of one physical value *)

(** X22: indexing does not depend on the unit a Quantity is written in: two
    Quantities of the physical type of the axis that stand for the same
    physical value (the same magnitude once scaled, as 2000 m and 2 km) give
    the same closest axis value and the same sample. *)
Theorem getitem_same_physical_value (self : Spectrum ndarray)
        (q1 q2 : u.Quantity) :
  convertible (axis_unit self) (PyQuantity q1) = true ->
  convertible (axis_unit self) (PyQuantity q2) = true ->
  (u.value q1 * u.scale (u.unit q1) = u.value q2 * u.scale (u.unit q2))%Qc ->
  _qty_to_pixel self (PyQuantity q1) = _qty_to_pixel self (PyQuantity q2) /\
  __getitem__ self (Obj (PyQuantity q1))
  = __getitem__ self (Obj (PyQuantity q2)).
Proof.
  simpl. intros H1 H2 Hv.
  assert (Hq : _qty_to_pixel self (PyQuantity q1)
               = _qty_to_pixel self (PyQuantity q2)).
  { unfold _qty_to_pixel, u.to. rewrite H1, H2. cbn [bind u.value].
    unfold Qcdiv. rewrite !Qcmult_assoc, Hv. reflexivity. }
  split; [exact Hq|].
  unfold __getitem__. rewrite Hq. reflexivity.
Qed.

Lemma getitem_same_physical_value_witness :
  (convertible (axis_unit (scenario metre))
     (PyQuantity (u.mul (float 2000) metre)) = true /\
   convertible (axis_unit (scenario metre))
     (PyQuantity (u.mul (float 2) kilometre)) = true /\
   (u.value (u.mul (float 2000) metre) * u.scale metre
    = u.value (u.mul (float 2) kilometre) * u.scale kilometre)%Qc) /\
  __getitem__ (scenario metre) (Obj (PyQuantity (u.mul (float 2000) metre)))
  = __getitem__ (scenario metre) (Obj (PyQuantity (u.mul (float 2) kilometre))).
Proof.
  assert (H1 : convertible (axis_unit (scenario metre))
                 (PyQuantity (u.mul (float 2000) metre)) = true)
    by reflexivity.
  assert (H2 : convertible (axis_unit (scenario metre))
                 (PyQuantity (u.mul (float 2) kilometre)) = true)
    by reflexivity.
  assert (H3 : (u.value (u.mul (float 2000) metre) * u.scale metre
                = u.value (u.mul (float 2) kilometre) * u.scale kilometre)%Qc)
    by (apply Qc_is_canon; reflexivity).
  split; [auto|].
  apply (proj2 (getitem_same_physical_value (scenario metre) _ _ H1 H2 H3)).
Defined.
